(** * histbook.expression: the expression translator and its logical normalizer

    A shallow embedding of [src/histbook/expression.py]: the syntax tree the
    translator receives, the objects it builds ([Const], [Name], [Call],
    [UnaryOp], [BinOp], [Relation], [Interval], [And], [Or]), the three
    combinators [not_], [and_], [or_], the recursive translator [recurse],
    the entry point [parse] and the textual rendering of [And] and [Or].

    Python exceptions are outcomes of type [result]; Python tuples stored in
    an object's field are values of the same type as the objects, because
    the fields of the source are untyped. *)

From Stdlib Require Import ZArith List String Ascii Bool Lia.
From Stdlib Require DecimalString.
Import ListNotations.
Open Scope string_scope.
Open Scope list_scope.

Set Implicit Arguments.
Set Warnings "-register-all".

(** ** Host values *)

(** The numbers a literal can denote.  A float is kept as its 64-bit
    pattern; its arithmetic belongs to the host (see [Section Translator]). *)
Inductive number : Type :=
| Int (i : Z)
| Float (bits : Z).

(** What a [Const] holds: a number, a string, or a set, the latter kept as
    the sequence of elements it was built from. *)
Inductive value : Type :=
| Number (n : number)
| Str (s : string)
| SetOf (elts : list value).

Abbreviation VInt i := (Number (Int i)).

(** ** The syntax tree handed over by the syntax adapter *)

Module ast.

Inductive expr_context : Type := Load | Store | Del | Param.

Inductive cmpop : Type :=
  | Eq | NotEq | Lt | LtE | Gt | GtE | Is | IsNot | In | NotIn.

Inductive unaryop : Type := Invert | Not | UAdd | USub.

Inductive boolop : Type := And | Or.

Inductive operator : Type :=
  | Add | Sub | Mult | MatMult | Div | Mod | Pow
  | LShift | RShift | BitOr | BitXor | BitAnd | FloorDiv.

Inductive expr : Type :=
  | Num (n : number)
  | Str (s : string)
  | Dict (keys values : list expr)
  | Set_ (elts : list expr)
  | Name (id : string) (ctx : expr_context)
  | Compare (left : expr) (ops : list cmpop) (comparators : list expr)
  | UnaryOp (op : unaryop) (operand : expr)
  | BoolOp (op : boolop) (values : list expr)
  | BinOp (left : expr) (op : operator) (right : expr)
  | Call (func : expr) (args : list expr)
  | Attribute (value : expr) (attr : string) (ctx : expr_context)
  | Subscript (value : expr) (index : expr) (ctx : expr_context)
  | List (elts : list expr) (ctx : expr_context)
  | Tuple (elts : list expr) (ctx : expr_context)
  | IfExp (test body orelse : expr)
  | Lambda (body : expr).

Inductive stmt : Type :=
  | Expr (value : expr)
  | Return (value : expr)
  | Assign (targets : list expr) (value : expr)
  | Pass.

End ast.

(** ** Outcomes *)

(** The exception classes that can leave the module.  [ExpressionError] is
    the module's own class; the fragment it renders through
    [meta.dump_python_source] is kept as the node itself. *)
Inductive exn : Type :=
| ExpressionError (msg : string) (node : ast.expr)
| TypeError (msg : string)
| NameError (name : string)
| KeyError (key : string)
| AttributeError (attr : string)
| IndexError
| ValueError (msg : string)
| ZeroDivisionError
| AssertionError.

Inductive result (A : Type) : Type :=
| Ok (a : A)
| Raise (e : exn).

Arguments Ok {A} a.
Arguments Raise {A} e.

Definition bind {A B : Type} (m : result A) (k : A -> result B) : result B :=
  match m with
  | Ok a => k a
  | Raise e => Raise e
  end.

Notation "x <- m ;; k" := (bind m (fun x => k))
  (at level 61, m at next level, right associativity).

(** [[f(x) for x in l if p(x)]]: the elements are visited in order and the
    first exception ends the comprehension. *)
Section Comprehension.
Variables A B : Type.
Variable p : A -> bool.
Variable f : A -> result B.

Fixpoint comprehension (l : list A) : result (list B) :=
    match l with
    | [] => Ok []
    | x :: l' =>
        if p x
        then y <- f x ;; ys <- comprehension l' ;; Ok (y :: ys)
        else comprehension l'
    end.
End Comprehension.

(** [[f(x) for x in l]] *)
Definition for_each {A B : Type} (f : A -> result B) (l : list A) : result (list B) :=
  comprehension (fun _ => true) f l.

(** ** The objects the translator builds *)

(** One type for every object that can sit in a field of an expression
    node.  [Call.__init__] (parameters [self], [fcn] and the variadic [args]) stores its variadic arguments,
    so the [args] of [Call], [UnaryOp] and [BinOp] (and of [And], [Or]
    through [Logical.__init__]) is the list of the positional
    arguments of the constructor call, whatever they are: a caller that
    passes one tuple gets a one-element [args] holding that tuple. *)
Inductive pyobj : Type :=
| PyNone
| Tuple (items : list pyobj)
| Const (value : value)
| Name (value : string)
| Call (fcn : string) (args : list pyobj)
| UnaryOp (fcn : string) (args : list pyobj)
| BinOp (fcn : string) (args : list pyobj)
| Relation (cmp : string) (arg const : pyobj)
| Interval (arg low high : pyobj) (lowclosed : bool)
| And (args : list pyobj)
| Or (args : list pyobj).

Record Dim : Type := { names : list string; expr : pyobj }.

(** The classes of the module, for [isinstance]. *)
Module cls.
Inductive t : Type :=
  | NoneType | tuple
  | Expr | Const | Name | Call | UnaryOp | BinOp
  | Relation | Interval | Logical | And | Or.

Definition eqb (a b : t) : bool :=
    match a, b with
    | NoneType, NoneType | tuple, tuple | Expr, Expr | Const, Const
    | Name, Name | Call, Call | UnaryOp, UnaryOp | BinOp, BinOp
    | Relation, Relation | Interval, Interval | Logical, Logical
    | And, And | Or, Or => true
    | _, _ => false
    end.

  (** The base class written in the [class] statement. *)
Definition base (c : t) : option t :=
    match c with
    | NoneType | tuple | Expr => None
    | Const | Name | Call | Relation | Interval | Logical => Some Expr
    | UnaryOp | BinOp => Some Call
    | And | Or => Some Logical
    end.

  (** The hierarchy is two levels deep below [Expr]. *)
Definition issubclass (c d : t) : bool :=
    eqb c d ||
    match base c with
    | None => false
    | Some b =>
        eqb b d || match base b with None => false | Some bb => eqb bb d end
    end.
End cls.

Definition type (x : pyobj) : cls.t :=
  match x with
  | PyNone => cls.NoneType
  | Tuple _ => cls.tuple
  | Const _ => cls.Const
  | Name _ => cls.Name
  | Call _ _ => cls.Call
  | UnaryOp _ _ => cls.UnaryOp
  | BinOp _ _ => cls.BinOp
  | Relation _ _ _ => cls.Relation
  | Interval _ _ _ _ => cls.Interval
  | And _ => cls.And
  | Or _ => cls.Or
  end.

Definition isinstance (x : pyobj) (c : cls.t) : bool := cls.issubclass (type x) c.

(** [x.args], read in the source only from objects already tested with
    [isinstance] against a class that has the field. *)
Definition args (x : pyobj) : list pyobj :=
  match x with
  | Call _ a | UnaryOp _ a | BinOp _ a | And a | Or a => a
  | _ => []
  end.

(** [x.fcn], likewise. *)
Definition fcn (x : pyobj) : string :=
  match x with
  | Call f _ | UnaryOp f _ | BinOp f _ => f
  | _ => EmptyString
  end.

Definition len {A : Type} (l : list A) : nat := List.length l.

(** ** Tables of [Expr.parse] *)

Fixpoint lookup {V : Type} (table : list (string * V)) (key : string) : result V :=
  match table with
  | [] => Raise (KeyError key)
  | (k, v) :: rest => if String.eqb k key then Ok v else lookup rest key
  end.

Definition inverse : list (string * string) :=
  [ ("==", "!=");
    ("!=", "==");
    ("<", ">=");
    ("<=", ">");
    (">", "<=");
    (">=", "<");
    ("in", "not in");
    ("not in", "in") ].

(** [itertools.product]: the Cartesian product of the iterables it is given
    as positional arguments, the rightmost one advancing fastest. *)
Module itertools.
Fixpoint product {A : Type} (iterables : list (list A)) : list (list A) :=
    match iterables with
    | [] => [[]]
    | it :: rest => flat_map (fun x => map (cons x) (product rest)) it
    end.
End itertools.

(** ** The logical normalizer *)

Fixpoint not_ (expr : pyobj) : result pyobj :=
  match expr with
  | Relation cmp arg const =>
      c <- lookup inverse cmp ;; Ok (Relation c arg const)
  | And a =>
      xs <- for_each not_ a ;; Ok (Or xs)
  | Or a =>
      notlogical <- comprehension (fun x => negb (isinstance x cls.And)) not_ a ;;
      logical <- comprehension (fun x => isinstance x cls.And) not_ a ;;
      if Nat.eqb (len logical) 0
      then Ok (And notlogical)
      else Ok (Or (map (fun x => And ([x] ++ notlogical)) logical))
  | _ => Raise AssertionError
  end.

Definition and_ (exprs : list pyobj) : result pyobj :=
  let ands := filter (fun x => isinstance x cls.And) exprs in
  let ors := filter (fun x => isinstance x cls.Or) exprs in
  let notlogical :=
    filter (fun x => negb (isinstance x cls.And || isinstance x cls.Or)) exprs in
  let notlogical := fold_left (fun acc x => acc ++ args x) ands notlogical in
  let ors := ors ++ [Or notlogical] in
  let out :=
    Or (map (fun a => And a)
            (itertools.product [map (fun x => Tuple (args x)) ors])) in
  match args out with
  | [] => Raise AssertionError
  | [branch] => Ok branch
  | _ => Ok out
  end.

Definition or_ (exprs : list pyobj) : result pyobj :=
  let ors := filter (fun x => isinstance x cls.Or) exprs in
  let others := filter (fun x => negb (isinstance x cls.Or)) exprs in
  let others := fold_left (fun acc x => acc ++ args x) ors others in
  Ok (Or others).

(** ** Names and objects of the host *)

(** An object reached by name from the module's namespace: a module-level
    binding, or an attribute of such an object. *)
Inductive hostobj : Type :=
| Global (name : string)
| Attr (owner : hostobj) (attr : string).

Fixpoint hostobj_eqb (a b : hostobj) : bool :=
  match a, b with
  | Global x, Global y => String.eqb x y
  | Attr o x, Attr o' y => hostobj_eqb o o' && String.eqb x y
  | _, _ => false
  end.

(** The names bound at module level: the imports, the classes, and the
    attributes every module carries. *)
Definition globals : list string :=
  [ "ast"; "itertools"; "math"; "meta"; "numpy";
    "ExpressionError"; "Dim"; "Expr"; "Const"; "Name"; "Call"; "UnaryOp";
    "BinOp"; "Relation"; "Interval"; "Logical"; "And"; "Or";
    "__name__"; "__doc__"; "__file__"; "__package__"; "__builtins__" ].

(** Reading a free variable of [recurse]: no enclosing function binds it, so
    it is searched at module level (no builtin of the host is called [ops],
    the only name read this way). *)
Definition load_global (id : string) : result hostobj :=
  if existsb (String.eqb id) globals then Ok (Global id) else Raise (NameError id).

(** [len(ops)] as written in the two comparison guards of [recurse]: [ops]
    is a free variable there (the node's field is [node.ops]); were it bound
    to a module or a class, [len] would reject it. *)
Definition len_ops : result nat :=
  _ <- load_global "ops" ;; Raise (TypeError "object has no len()").

(** [Expr.recognized]: the keys are the functions [math.sqrt] and
    [numpy.sqrt]. *)
Definition recognized : list (hostobj * string) :=
  [ (Attr (Global "math") "sqrt", "sqrt");
    (Attr (Global "numpy") "sqrt", "sqrt") ].

(** [recognized.get(o, None)]: the key is hashed before it is looked up.
    Every object a module-level name is bound to can be hashed, except the
    one bound to [__builtins__], which in an imported module is a dict. *)
Definition recognized_get (o : hostobj) : result (option string) :=
  if hostobj_eqb o (Global "__builtins__")
  then Raise (TypeError "unhashable type: 'dict'")
  else Ok (option_map snd (find (fun kv => hostobj_eqb (fst kv) o) recognized)).

(** [x in recognized.values()] *)
Definition in_recognized_values (x : string) : bool :=
  existsb (fun kv => String.eqb (snd kv) x) recognized.

(** [node.value] of an expression node. *)
Definition expr_value (node : ast.expr) : result ast.expr :=
  match node with
  | ast.Attribute v _ _ | ast.Subscript v _ _ => Ok v
  | _ => Raise (AttributeError "value")
  end.

(** [node.id]: only a name node has the field. *)
Definition expr_id (node : ast.expr) : result string :=
  match node with
  | ast.Name id _ => Ok id
  | _ => Raise (AttributeError "id")
  end.

(** The operator symbols chosen by the two [isinstance] cascades. *)
Definition cmp_symbol (op : ast.cmpop) : option string :=
  match op with
  | ast.Eq => Some "=="
  | ast.NotEq => Some "!="
  | ast.Lt => Some "<"
  | ast.LtE => Some "<="
  | ast.Gt => Some ">"
  | ast.GtE => Some ">="
  | ast.In => Some "in"
  | ast.NotIn => Some "not in"
  | ast.Is | ast.IsNot => None
  end.

Definition binop_symbol (op : ast.operator) : option string :=
  match op with
  | ast.Add => Some "+"
  | ast.Sub => Some "-"
  | ast.Mult => Some "*"
  | ast.Div => Some "/"
  | ast.FloorDiv => Some "//"
  | ast.Mod => Some "%"
  | ast.Pow => Some "**"
  | ast.BitOr => Some "|"
  | ast.BitAnd => Some "&"
  | ast.BitXor => Some "^"
  | ast.MatMult | ast.LShift | ast.RShift => None
  end.

(** [x.value] of a [Const]. *)
Definition const_value (x : pyobj) : value :=
  match x with
  | Const v => v
  | _ => SetOf []
  end.

(** The final [else] of [recurse]: the exception object is built and
    dropped, and the function ends without a [return]. *)
Definition unhandled (node : ast.expr) : result pyobj :=
  let _ := ExpressionError "unhandled syntax in expression" node in
  Ok PyNone.

(** Lines 165-170: orientation of a single comparison. *)
Definition relation (cmp : string) (left right : pyobj) (node : ast.expr) : result pyobj :=
  if negb (isinstance left cls.Const) && isinstance right cls.Const
  then Ok (Relation cmp left right)
  else if isinstance left cls.Const && negb (isinstance right cls.Const)
  then c <- lookup inverse cmp ;; Ok (Relation c right left)
  else Raise (ExpressionError
    "comparisons must relate an unknown expression to a known constant" node).

(** Lines 192-196: the interval once its three parts are translated. *)
Definition interval (arg low high : pyobj) (lowclosed : bool) (node : ast.expr) : result pyobj :=
  if isinstance low cls.Const && isinstance high cls.Const
     && negb (isinstance arg cls.Const)
  then Ok (Interval arg low high lowclosed)
  else Raise (ExpressionError
    "interval comparisons must have known constants on the low and high edge with an unknown expression in the middle" node).

(** Lines 213-218 and 223-228: a unary operator on a translated operand. *)
Definition unary (sym : string) (content : pyobj) : result pyobj :=
  if isinstance content cls.UnaryOp && String.eqb (fcn content) sym
  then Ok content
  else Ok (UnaryOp sym [content]).

(** ** The translator *)

Section Translator.

(** What the host language supplies and this development leaves open:
    [host_binop s x y] is the host's evaluation of [x s y] when an operand
    is not an int or the result is not an int (float arithmetic, string and
    set operators, their type errors); [host_hasattr o a] tells whether the
    object [o] has the attribute [a]; [host_set values] is the sequence of
    elements of the set the host builds from hashable values: which values
    it takes for equal, and so keeps once, and in what order it holds them,
    is the host's matter. *)
Variable host_binop : string -> value -> value -> result value.
Variable host_hasattr : hostobj -> string -> bool.
Variable host_set : list value -> list value.

(** [set(values)]: a set is not hashable, so it cannot be an element. *)
Definition set_ (values : list value) : result value :=
  if existsb (fun v => match v with SetOf _ => true | _ => false end) values
  then Raise (TypeError "unhashable type: 'set'")
  else Ok (SetOf (host_set values)).

(** The host's operators, exact on ints (which are unbounded).  Floor
    division and remainder round towards minus infinity, as [Z.div] and
    [Z.modulo] do.  The quotient [/] of two ints is a float in one version
    of the host and the floor quotient in the other, and a negative power is
    a float: both are left to [host_binop], after the test for a zero
    divisor, which every version makes. *)
Definition on_ints (sym : string) (f : Z -> Z -> result value) (x y : value) : result value :=
  match x, y with
  | VInt a, VInt b => f a b
  | _, _ => host_binop sym x y
  end.

Definition py_add := on_ints "+" (fun a b => Ok (VInt (a + b)%Z)).
Definition py_sub := on_ints "-" (fun a b => Ok (VInt (a - b)%Z)).
Definition py_mul := on_ints "*" (fun a b => Ok (VInt (a * b)%Z)).
Definition py_div := on_ints "/" (fun a b =>
  if (b =? 0)%Z then Raise ZeroDivisionError
  else host_binop "/" (VInt a) (VInt b)).
Definition py_floordiv := on_ints "//" (fun a b =>
  if (b =? 0)%Z then Raise ZeroDivisionError else Ok (VInt (a / b)%Z)).
Definition py_mod := on_ints "%" (fun a b =>
  if (b =? 0)%Z then Raise ZeroDivisionError else Ok (VInt (a mod b)%Z)).
Definition py_pow := on_ints "**" (fun a b =>
  if (0 <=? b)%Z then Ok (VInt (a ^ b)%Z)
  else if (a =? 0)%Z then Raise ZeroDivisionError
  else host_binop "**" (VInt a) (VInt b)).
Definition py_or := on_ints "|" (fun a b => Ok (VInt (Z.lor a b))).
Definition py_and := on_ints "&" (fun a b => Ok (VInt (Z.land a b))).
Definition py_xor := on_ints "^" (fun a b => Ok (VInt (Z.lxor a b))).

Definition calculate : list (string * (value -> value -> result value)) :=
  [ ("+", py_add);
    ("-", py_sub);
    ("*", py_mul);
    ("/", py_div);
    ("//", py_floordiv);
    ("%", py_mod);
    ("**", py_pow);
    ("|", py_or);
    ("&", py_and);
    ("^", py_xor) ].

(** [getattr(o, a)] *)
Definition getattr (o : hostobj) (a : string) : result hostobj :=
  if host_hasattr o a then Ok (Attr o a) else Raise (AttributeError a).

Fixpoint resolve (node : ast.expr) : result hostobj :=
  match node with
  | ast.Attribute v a _ => o <- resolve v ;; getattr o a
  | ast.Name id _ =>
      if existsb (String.eqb id) globals then Ok (Global id) else Raise (KeyError id)
  | _ => Raise (ExpressionError "not a function name" node)
  end.

(** Lines 250-259: the node built from the two translated operands. *)
Definition binop (sym : string) (left right : pyobj) : result pyobj :=
  if isinstance left cls.Const && isinstance right cls.Const
  then f <- lookup calculate sym ;;
       v <- f (const_value left) (const_value right) ;;
       Ok (Const v)
  else if isinstance left cls.BinOp && String.eqb (fcn left) sym
          && isinstance right cls.BinOp && String.eqb (fcn right) sym
  then Ok (BinOp sym [Tuple (args left ++ args right)])
  else if isinstance left cls.BinOp && String.eqb (fcn left) sym
  then Ok (BinOp sym [Tuple (args left ++ [right])])
  else if isinstance right cls.BinOp && String.eqb (fcn right) sym
  then Ok (BinOp sym [Tuple ([left] ++ args right)])
  else Ok (BinOp sym [Tuple [left; right]]).

(** [recurse(node, relations, intervals)].  The [isinstance] tests of the
    [elif] chain are exclusive on the node's class, so the chain is read
    class by class; within a class the guards are tried in source order. *)
Fixpoint recurse (node : ast.expr) (relations intervals : bool) {struct node} : result pyobj :=
  match node with
  | ast.Num n => Ok (Const (Number n))
  | ast.Str s => Ok (Const (Str s))
  | ast.Dict keys _ =>
      if Nat.eqb (len keys) 0 then Ok (Const (SetOf [])) else unhandled node
  | ast.Set_ elts =>
      content <- for_each (fun x => recurse x false false) elts ;;
      if forallb (fun x => isinstance x cls.Const) content
      then s <- set_ (map const_value content) ;; Ok (Const s)
      else Raise (ExpressionError
        "sets in expressions may not contain variable contents" node)
  | ast.Name id ctx =>
      match ctx with
      | ast.Load => Ok (Name id)
      | _ => unhandled node
      end
  | ast.Compare lhs ops comparators =>
      single <- (if relations then n <- len_ops ;; Ok (Nat.eqb n 1) else Ok false) ;;
      if single then
        match ops, comparators with
        | op0 :: _, c0 :: _ =>
            match cmp_symbol op0 with
            | Some cmp =>
                l <- recurse lhs false false ;;
                r <- recurse c0 false false ;;
                relation cmp l r node
            | None => Raise (ExpressionError
                "only comparision relations supported: '==', '!=', '<', '<=', '>', '>=', 'in', and 'not in'" node)
            end
        | _, _ => Raise IndexError
        end
      else
      chained <- (if intervals then n <- len_ops ;; Ok (Nat.eqb n 2) else Ok false) ;;
      if chained then
        match ops, comparators with
        | op0 :: op1 :: _, c0 :: c1 :: _ =>
            match op0, op1 with
            | ast.LtE, ast.Lt =>
                low <- recurse lhs false false ;;
                high <- recurse c1 false false ;;
                arg <- recurse c0 false false ;;
                interval arg low high true node
            | ast.Lt, ast.LtE =>
                low <- recurse lhs false false ;;
                high <- recurse c1 false false ;;
                arg <- recurse c0 false false ;;
                interval arg low high false node
            | ast.Gt, ast.GtE =>
                low <- recurse c1 false false ;;
                high <- recurse lhs false false ;;
                arg <- recurse c0 false false ;;
                interval arg low high true node
            | ast.GtE, ast.Gt =>
                low <- recurse c1 false false ;;
                high <- recurse lhs false false ;;
                arg <- recurse c0 false false ;;
                interval arg low high false node
            | _, _ => Raise (ExpressionError
                "interval comparisons may be A <= x < B, A < x <= B, A > x >= B, A >= x > B, but no other combination" node)
            end
        | _, _ => Raise IndexError
        end
      else Raise (ExpressionError
        "comparison operators are only allowed at the top of an expression and only interval ranges are allowed to be chained" node)
  | ast.UnaryOp op operand =>
      match op with
      | ast.Not =>
          if relations
          then x <- recurse operand true false ;; not_ x
          else Raise (ExpressionError
            "only unary operators supported: 'not', '-', '+', and '~'" node)
      | ast.USub => content <- recurse operand false false ;; unary "-" content
      | ast.UAdd => recurse operand false false
      | ast.Invert => content <- recurse operand false false ;; unary "~" content
      end
  | ast.BoolOp op values =>
      if relations then
        xs <- for_each (fun x => recurse x true false) values ;;
        match op with
        | ast.And => and_ xs
        | ast.Or => or_ xs
        end
      else Raise (ExpressionError
        "logical operators are only allowed at the top of an expression" node)
  | ast.BinOp lhs op rhs =>
      match binop_symbol op with
      | Some sym =>
          l <- recurse lhs false false ;;
          r <- recurse rhs false false ;;
          binop sym l r
      | None => Raise (ExpressionError
          "only binary operators supported: '+', '-', '*', '/', '//', '%', '**', '|', '&', and '^'" node)
      end
  | ast.Call func a =>
      id <- expr_id func ;;
      f <- (if in_recognized_values id then Ok (Some id)
            else o <- resolve func ;; recognized_get o) ;;
      match f with
      | None => Raise (ExpressionError "unhandled function in expression" node)
      | Some name =>
          xs <- for_each (fun x => recurse x false false) a ;;
          Ok (Call name [Tuple xs])
      end
  | _ => unhandled node
  end.

(** What [meta.decompiler.decompile_func] returns for a callable, and what
    [ast.parse] returns for a text (the body of the module). *)
Inductive lambda_body : Type :=
| BodyStmt (s : ast.stmt)
| BodyExpr (e : ast.expr).

Inductive decompiled : Type :=
| FunctionDef (body : list ast.stmt)
| Lambda (body : lambda_body).

Inductive expression : Type :=
| Callable (fcn : decompiled)
| Text (body : list ast.stmt).

(** [fcn.body.value] *)
Definition body_value (b : lambda_body) : result ast.expr :=
  match b with
  | BodyStmt (ast.Expr v) | BodyStmt (ast.Return v) | BodyStmt (ast.Assign _ v) => Ok v
  | BodyStmt ast.Pass => Raise (AttributeError "value")
  | BodyExpr e => expr_value e
  end.

Definition container_error : exn :=
  TypeError "expression must be a one-line string, one-line function, or lambda expression".

Definition dim (e : result pyobj) : result Dim :=
  x <- e ;; Ok {| names := []; expr := x |}.

Definition parse (expression : expression) : result Dim :=
  match expression with
  | Callable (FunctionDef [ast.Return v]) => dim (recurse v true true)
  | Callable (FunctionDef _) => Raise container_error
  | Callable (Lambda b) => v <- body_value b ;; dim (recurse v true true)
  | Text [ast.Expr v] => dim (recurse v true true)
  | Text _ => Raise container_error
  end.

End Translator.

(** ** Textual rendering *)

(** An argument handed to [str.format]: a string, an object, or a generator
    expression, whose elements are computed only when it is iterated. *)
Inductive fmtarg : Type :=
| ArgStr (s : string)
| ArgObj (o : pyobj)
| ArgGen (pending : list (unit -> result string)).

(** How the replacement fields met so far were numbered. *)
Inductive numbering : Type :=
| Unset
| Auto (next : nat)
| Manual.

Definition is_digit (c : ascii) : bool :=
  let n := nat_of_ascii c in Nat.leb 48 n && Nat.leb n 57.

Definition digits_value (ds : list ascii) : nat :=
  fold_left (fun acc c => 10 * acc + (nat_of_ascii c - 48)) ds 0.

(** The argument index a replacement field names.  The templates of the
    module use positional fields only; a field that is neither empty nor a
    number is a keyword, and the module passes no keyword argument. *)
Definition field_index (name : list ascii) (mode : numbering) : result (nat * numbering) :=
  match name with
  | [] =>
      match mode with
      | Unset => Ok (0, Auto 1)
      | Auto n => Ok (n, Auto (S n))
      | Manual => Raise (ValueError
          "cannot switch from manual field specification to automatic field numbering")
      end
  | _ =>
      if forallb is_digit name then
        match mode with
        | Auto _ => Raise (ValueError
            "cannot switch from automatic field numbering to manual field specification")
        | _ => Ok (digits_value name, Manual)
        end
      else Raise (KeyError (string_of_list_ascii name))
  end.

Section Rendering.

(** The host's [str] on the objects of the module (it calls the [__str__]
    of the object's class), and the text it gives for a generator object. *)
Variable str : pyobj -> result string.
Variable generator_repr : string.

Definition render (a : fmtarg) : result string :=
  match a with
  | ArgStr s => Ok s
  | ArgObj o => str o
  | ArgGen _ => Ok generator_repr
  end.

(** [template.format(args)], one character at a time; [field] holds the
    characters of the replacement field being read, last one first. *)
Fixpoint format_from (args : list fmtarg) (template : list ascii)
    (field : option (list ascii)) (mode : numbering) {struct template}
    : result (list ascii) :=
  match field with
  | None =>
      match template with
      | [] => Ok []
      | c :: rest =>
          if Ascii.eqb c "{" then
            match rest with
            | [] => Raise (ValueError "Single '{' encountered in format string")
            | c' :: rest' =>
                if Ascii.eqb c' "{"
                then out <- format_from args rest' None mode ;; Ok (c :: out)
                else format_from args rest (Some []) mode
            end
          else if Ascii.eqb c "}" then
            match rest with
            | [] => Raise (ValueError "Single '}' encountered in format string")
            | c' :: rest' =>
                if Ascii.eqb c' "}"
                then out <- format_from args rest' None mode ;; Ok (c :: out)
                else Raise (ValueError "Single '}' encountered in format string")
            end
          else out <- format_from args rest None mode ;; Ok (c :: out)
      end
  | Some name =>
      match template with
      | [] => Raise (ValueError "expected '}' before end of string")
      | c :: rest =>
          if Ascii.eqb c "}" then
            im <- field_index (rev name) mode ;;
            match nth_error args (fst im) with
            | None => Raise IndexError
            | Some a =>
                s <- render a ;;
                out <- format_from args rest None (snd im) ;;
                Ok (list_ascii_of_string s ++ out)
            end
          else format_from args rest (Some (c :: name)) mode
      end
  end.

Definition format (template : string) (args : list fmtarg) : result string :=
  out <- format_from args (list_ascii_of_string template) None Unset ;;
  Ok (string_of_list_ascii out).

Definition Relation__str__ (self : pyobj) : result string :=
  match self with
  | Relation cmp arg const =>
      a <- str arg ;;
      c <- str const ;;
      format "{0} {1} {2}" [ArgStr a; ArgStr cmp; ArgStr c]
  | _ => Raise (AttributeError "arg")
  end.

(** The generator expression is the one argument of [format]; it is built
    over [self.args] and left to [format] to iterate. *)
Definition And__str__ (self : pyobj) : result string :=
  format " and " [ArgGen (map (fun x (_ : unit) => str x) (args self))].

Definition Or__str__ (self : pyobj) : result string :=
  format " or "
    [ArgGen (map (fun x (_ : unit) =>
                    if isinstance x cls.And
                    then s <- str x ;; Ok ("(" ++ s ++ ")")%string
                    else str x)
                 (args self))].

End Rendering.

(** ** Definitions used by the statements *)

(** A host whose operators are defined on ints only: every other operand
    pair is a type error, and no object has attributes. *)
Definition ints_only_binop : string -> value -> value -> result value :=
  fun sym _ _ => Raise (TypeError ("unsupported operand type(s) for " ++ sym)%string).

Definition no_attributes : hostobj -> string -> bool := fun _ _ => false.

(** A host set that holds its elements as they were given; it stands in
    where no set is built. *)
Definition as_written : list value -> list value := fun values => values.

(** A [BinOp] whose operands are exactly two constants, in either layout
    of [args]. *)
Definition two_constant_operands (o : pyobj) : bool :=
  match o with
  | BinOp _ [Const _; Const _] => true
  | BinOp _ [Tuple [Const _; Const _]] => true
  | _ => false
  end.

(** The layout of the [BinOp] nodes the translator builds: [args] holds one
    tuple, and a two-element tuple never holds two constants. *)
Definition layout_ok (o : pyobj) : bool :=
  match o with
  | BinOp _ [Tuple [x; y]] =>
      negb (isinstance x cls.Const && isinstance y cls.Const)
  | BinOp _ [Tuple _] => true
  | BinOp _ _ => false
  | _ => true
  end.

(** The objects held directly in the fields of an object. *)
Definition components (o : pyobj) : list pyobj :=
  match o with
  | PyNone | Const _ | Name _ => []
  | Tuple a | Call _ a | UnaryOp _ a | BinOp _ a | And a | Or a => a
  | Relation _ x y => [x; y]
  | Interval x l h _ => [x; l; h]
  end.

(** Every object met inside an object, itself included. *)
Fixpoint inside (o : pyobj) : list pyobj :=
  o :: match o with
       | PyNone | Const _ | Name _ => []
       | Tuple a | Call _ a | UnaryOp _ a | BinOp _ a | And a | Or a =>
           flat_map inside a
       | Relation _ x y => inside x ++ inside y
       | Interval x l h _ => inside x ++ inside l ++ inside h
       end.

(** [layout_ok] at every depth. *)
Fixpoint sound (o : pyobj) : bool :=
  layout_ok o &&
  match o with
  | PyNone | Const _ | Name _ => true
  | Tuple a | Call _ a | UnaryOp _ a | BinOp _ a | And a | Or a =>
      forallb sound a
  | Relation _ x y => sound x && sound y
  | Interval x l h _ => sound x && sound l && sound h
  end.

(** The sub-expressions the translator can descend into. *)
Definition children (node : ast.expr) : list ast.expr :=
  match node with
  | ast.Set_ elts => elts
  | ast.UnaryOp _ operand => [operand]
  | ast.BoolOp _ values => values
  | ast.BinOp lhs _ rhs => [lhs; rhs]
  | ast.Call _ a => a
  | _ => []
  end.

(** Induction over objects and over syntax trees, with the hypothesis for
    every component, respectively child, of a list-valued field. *)
Section ComponentInduction.
Variable P : pyobj -> Prop.
Hypothesis step : forall o, Forall P (components o) -> P o.

Fixpoint pyobj_components_ind (o : pyobj) : P o :=
  let all := fix all (l : list pyobj) : Forall P l :=
    match l with
    | [] => Forall_nil P
    | x :: l' => Forall_cons x (pyobj_components_ind x) (all l')
    end in
  step o
    match o return Forall P (components o) with
    | PyNone => Forall_nil P
    | Const _ => Forall_nil P
    | Name _ => Forall_nil P
    | Tuple a => all a
    | Call _ a => all a
    | UnaryOp _ a => all a
    | BinOp _ a => all a
    | And a => all a
    | Or a => all a
    | Relation _ x y =>
        Forall_cons x (pyobj_components_ind x)
          (Forall_cons y (pyobj_components_ind y) (Forall_nil P))
    | Interval x l h _ =>
        Forall_cons x (pyobj_components_ind x)
          (Forall_cons l (pyobj_components_ind l)
             (Forall_cons h (pyobj_components_ind h) (Forall_nil P)))
    end.
End ComponentInduction.

Section ChildrenInduction.
Variable P : ast.expr -> Prop.
Hypothesis step : forall node, Forall P (children node) -> P node.

Fixpoint expr_children_ind (node : ast.expr) : P node :=
  let all := fix all (l : list ast.expr) : Forall P l :=
    match l with
    | [] => Forall_nil P
    | x :: l' => Forall_cons x (expr_children_ind x) (all l')
    end in
  step node
    match node return Forall P (children node) with
    | ast.Set_ elts => all elts
    | ast.UnaryOp _ operand =>
        Forall_cons operand (expr_children_ind operand) (Forall_nil P)
    | ast.BoolOp _ values => all values
    | ast.BinOp lhs _ rhs =>
        Forall_cons lhs (expr_children_ind lhs)
          (Forall_cons rhs (expr_children_ind rhs) (Forall_nil P))
    | ast.Call _ a => all a
    | _ => Forall_nil P
    end.
End ChildrenInduction.

(** Two constants that are both ints. *)
Definition both_ints (x y : value) : bool :=
  match x, y with
  | VInt _, VInt _ => true
  | _, _ => false
  end.

(** The input shapes the entry point accepts: a function whose body is one
    return statement, a lambda, a text that is one expression statement. *)
Definition reducible (e : expression) : bool :=
  match e with
  | Callable (FunctionDef [ast.Return _]) => true
  | Callable (FunctionDef _) => false
  | Callable (Lambda _) => true
  | Text [ast.Expr _] => true
  | Text _ => false
  end.

(** The class of an exception is what callers tell errors apart by. *)
Definition is_ExpressionError (e : exn) : bool :=
  match e with
  | ExpressionError _ _ => true
  | _ => false
  end.

Definition is_TypeError (e : exn) : bool :=
  match e with
  | TypeError _ => true
  | _ => false
  end.

(** Sample nodes: the variable [x], an int literal, three relations. *)
Definition var (id : string) : ast.expr := ast.Name id ast.Load.
Definition lit (i : Z) : ast.expr := ast.Num (Int i).
Definition rel_a : pyobj := Relation "==" (Name "a") (Const (VInt 1)).
Definition rel_b : pyobj := Relation "<" (Name "b") (Const (VInt 2)).
Definition rel_c : pyobj := Relation ">" (Name "c") (Const (VInt 3)).

(** ** Further definitions used by the statements *)

(** The operator symbols [inverse] has an entry for. *)
Definition known_cmp (cmp : string) : bool :=
  existsb (fun kv => String.eqb (fst kv) cmp) inverse.

(** The trees [not_] works on: relations with a known operator, combined
    with [And] and [Or]. *)
Fixpoint negatable (o : pyobj) : bool :=
  match o with
  | Relation cmp _ _ => known_cmp cmp
  | And a | Or a => forallb negatable a
  | _ => false
  end.

(** A relation with a known operator. *)
Definition simple (o : pyobj) : bool :=
  isinstance o cls.Relation && negatable o.

(** No [Relation] and no [Interval], at any depth. *)
Fixpoint comparison_free (o : pyobj) : bool :=
  match o with
  | PyNone | Const _ | Name _ => true
  | Tuple a | Call _ a | UnaryOp _ a | BinOp _ a | And a | Or a =>
      forallb comparison_free a
  | Relation _ _ _ | Interval _ _ _ _ => false
  end.

(** What the grammar of the host guarantees for the nodes the translator
    descends into: a boolean operation has at least two operands. *)
Fixpoint boolops_well_formed (node : ast.expr) : bool :=
  match node with
  | ast.BoolOp _ values =>
      Nat.leb 2 (len values) && forallb boolops_well_formed values
  | ast.UnaryOp _ operand => boolops_well_formed operand
  | ast.BinOp lhs _ rhs => boolops_well_formed lhs && boolops_well_formed rhs
  | ast.Set_ elts => forallb boolops_well_formed elts
  | ast.Call _ a => forallb boolops_well_formed a
  | _ => true
  end.

(** The group [and_] adds for the operands that are not [Or]: the plain
    operands, then the children of the [And] operands. *)
Definition implicit_group (exprs : list pyobj) : list pyobj :=
  filter (fun x => negb (isinstance x cls.And || isinstance x cls.Or)) exprs
  ++ flat_map args (filter (fun x => isinstance x cls.And) exprs).

Definition is_Raise {A : Type} (r : result A) : bool :=
  match r with
  | Ok _ => false
  | Raise _ => true
  end.

(** The syntax that is only accepted where relations are allowed. *)
Definition logical_syntax (node : ast.expr) : bool :=
  match node with
  | ast.Compare _ _ _ | ast.BoolOp _ _ | ast.UnaryOp ast.Not _ => true
  | _ => false
  end.

(** ** [__repr__] and [__str__] of every class *)

(** [self.__class__.__name__] *)
Definition class_name (o : pyobj) : string :=
  match o with
  | PyNone => "NoneType"
  | Tuple _ => "tuple"
  | Const _ => "Const"
  | Name _ => "Name"
  | Call _ _ => "Call"
  | UnaryOp _ _ => "UnaryOp"
  | BinOp _ _ => "BinOp"
  | Relation _ _ _ => "Relation"
  | Interval _ _ _ _ => "Interval"
  | And _ => "And"
  | Or _ => "Or"
  end.

(** [sep.join(items)] *)
Definition join (sep : string) (items : list string) : string :=
  String.concat sep items.

(** The text of a tuple whose items have the given [repr]s: a tuple of
    one item is written with a trailing comma. *)
Definition tuple_text (items : list string) : string :=
  match items with
  | [x] => ("(" ++ x ++ ",)")%string
  | _ => ("(" ++ join ", " items ++ ")")%string
  end.

Section Show.

(** The host's [str] and [repr] on the values of constants and its [repr]
    on strings (operator symbols, function and variable names); none of
    them raises.  [generator_repr] is the text of a generator object. *)
Variable str_value repr_value : value -> string.
Variable repr_string : string -> string.
Variable generator_repr : string.

(** [repr(o)] when [as_repr] is set, [str(o)] otherwise.  [Expr.__repr__]
    formats the class name and the joined [_reprargs()] of the class; a
    tuple and [None] have their host texts, which for a tuple is made of
    the [repr]s of its items in both cases. *)
Fixpoint show (as_repr : bool) (o : pyobj) {struct o} : result string :=
  let fmt := format (fun _ => Raise (TypeError "not an argument")) generator_repr in
  let Expr__repr__ (reprargs : list string) :=
    fmt "{0}({1})" [ArgStr (class_name o); ArgStr (join ", " reprargs)] in
  match o with
  | PyNone => Ok "None"
  | Tuple items =>
      rs <- for_each (show true) items ;; Ok (tuple_text rs)
  | Const v =>
      if as_repr then Expr__repr__ [repr_value v] else Ok (str_value v)
  | Name v =>
      if as_repr then Expr__repr__ [repr_string v] else Ok v
  | Call f a =>
      if as_repr
      then rs <- for_each (show true) a ;; Expr__repr__ ([repr_string f] ++ rs)
      else ss <- for_each (show false) a ;;
           fmt "{0}({1})" [ArgStr f; ArgStr (join ", " ss)]
  | UnaryOp f a =>
      if as_repr
      then rs <- for_each (show true) a ;; Expr__repr__ ([repr_string f] ++ rs)
      else Raise (AttributeError "arg")
  | BinOp f a =>
      if as_repr
      then rs <- for_each (show true) a ;; Expr__repr__ ([repr_string f] ++ rs)
      else ss <- for_each
                   (fun x => if isinstance x cls.BinOp
                             then s <- show false x ;; Ok ("(" ++ s ++ ")")%string
                             else show false x) a ;;
           Ok (join (" " ++ f ++ " ")%string ss)
  | Relation cmp arg const =>
      if as_repr
      then ra <- show true arg ;;
           rc <- show true const ;;
           Expr__repr__ [repr_string cmp; ra; rc]
      else sa <- show false arg ;;
           sc <- show false const ;;
           fmt "{0} {1} {2}" [ArgStr sa; ArgStr cmp; ArgStr sc]
  | Interval arg low high lowclosed =>
      if as_repr
      then rl <- show true low ;;
           rh <- show true high ;;
           ra <- show true arg ;;
           Expr__repr__ (if lowclosed then [rl; rh; ra]
                         else [rl; rh; ra; "lowclosed=False"])
      else if lowclosed
      then sl <- show false low ;;
           sa <- show false arg ;;
           sh <- show false high ;;
           fmt "{0} <= {1} < {2}" [ArgStr sl; ArgStr sa; ArgStr sh]
      else sl <- show false low ;;
           sa <- show false arg ;;
           sh <- show false high ;;
           fmt "{0} < {1} <= {2}" [ArgStr sl; ArgStr sa; ArgStr sh]
  | And a =>
      if as_repr
      then rs <- for_each (show true) a ;; Expr__repr__ rs
      else fmt " and " [ArgGen (map (fun x (_ : unit) => show false x) a)]
  | Or a =>
      if as_repr
      then rs <- for_each (show true) a ;; Expr__repr__ rs
      else fmt " or "
             [ArgGen (map (fun x (_ : unit) =>
                             if isinstance x cls.And
                             then s <- show false x ;; Ok ("(" ++ s ++ ")")%string
                             else show false x) a)]
  end.

Definition repr (o : pyobj) : result string := show true o.
Definition str (o : pyobj) : result string := show false o.

(** [Dim.__repr__]; [names] is a list of strings, whose text the host
    gives. *)
Variable repr_names : list string -> string.

Definition Dim__repr__ (d : Dim) : result string :=
  e <- repr (expr d) ;;
  format (fun _ => Raise (TypeError "not an argument")) generator_repr
    "Dim({0}, {1})" [ArgStr (repr_names (names d)); ArgStr e].

End Show.

(** ** [histbook.vega]: chains of facets *)

Module vega.

(** The exceptions the chain methods raise themselves; [SourceError]
    stands for whatever the histogram raises when it is indexed with a key
    it does not know. *)
Inductive error : Type :=
| TypeError (msg : string)
| NotImplementedError (msg : string)
| SourceError.

Inductive outcome (A : Type) : Type :=
| Done (a : A)
| Failed (e : error).

Arguments Done {A} a.
Arguments Failed {A} e.

Definition then_ {A B : Type} (m : outcome A) (k : A -> outcome B) : outcome B :=
  match m with
  | Done a => k a
  | Failed e => Failed e
  end.

Section Chains.

(** The axis objects of [histbook.axis] and the keys a histogram can be
    indexed with are left open. *)
Variables axis key : Type.

(** What a caller passes where an axis is expected: [None], an axis
    object, or anything else, which is looked up in the histogram. *)
Inductive given : Type :=
| GivenNone
| GivenAxis (a : axis)
| GivenKey (k : key).

Inductive facet : Type :=
| OverlayFacet (a : option axis)
| StackFacet (a : option axis)
| BesideFacet (a : option axis)
| BelowFacet (a : option axis)
| StepFacet (a profile : option axis)
| AreaFacet (a profile : option axis)
| LineFacet (a profile : option axis) (error : bool)
| MarkerFacet (a profile : option axis) (error : bool).

(** The histogram a chain starts from, as far as the chain reads it:
    [_group + _fixed] and [axis[key]]. *)
Record hist : Type := {
  group_and_fixed : list axis;
  lookup_axis : key -> option axis
}.

Record FacetChain : Type := { _source : hist; _chain : list facet }.

Record Plotable : Type := { plot_source : hist; plot_chain : list facet }.

Definition is_OverlayFacet (x : facet) : bool :=
  match x with OverlayFacet _ => true | _ => false end.
Definition is_StackFacet (x : facet) : bool :=
  match x with StackFacet _ => true | _ => false end.
Definition is_BesideFacet (x : facet) : bool :=
  match x with BesideFacet _ => true | _ => false end.
Definition is_BelowFacet (x : facet) : bool :=
  match x with BelowFacet _ => true | _ => false end.

(** [FacetChain(source, item)] and [Plotable(source, item)]: a source that
    is a chain hands over its own source and its chain, extended. *)
Definition FacetChain__init__ (source : hist + FacetChain) (item : facet) : FacetChain :=
  match source with
  | inr c => {| _source := _source c; _chain := _chain c ++ [item] |}
  | inl h => {| _source := h; _chain := [item] |}
  end.

Definition Plotable__init__ (source : hist + FacetChain) (item : facet) : Plotable :=
  match source with
  | inr c => {| plot_source := _source c; plot_chain := _chain c ++ [item] |}
  | inl h => {| plot_source := h; plot_chain := [item] |}
  end.

Definition _singleaxis (self : FacetChain) (a : given) : outcome given :=
  match a with
  | GivenNone =>
      match group_and_fixed (_source self) with
      | [x] => Done (GivenAxis x)
      | _ => Failed (TypeError
          "histogram has more than one axis; one must be specified for plotting")
      end
  | _ => Done a
  end.

Definition _asaxis (self : FacetChain) (a : given) : outcome (option axis) :=
  match a with
  | GivenNone => Done None
  | GivenAxis x => Done (Some x)
  | GivenKey k =>
      match lookup_axis (_source self) k with
      | Some x => Done (Some x)
      | None => Failed SourceError
      end
  end.

Definition overlay (self : FacetChain) (a : given) : outcome FacetChain :=
  if existsb is_OverlayFacet (_chain self)
  then Failed (TypeError "cannot overlay an overlay")
  else then_ (_asaxis self a) (fun x =>
       Done (FacetChain__init__ (inr self) (OverlayFacet x))).

Definition stack (self : FacetChain) (a : given) : outcome FacetChain :=
  if existsb is_StackFacet (_chain self)
  then Failed (TypeError "cannot stack a stack")
  else then_ (_asaxis self a) (fun x =>
       Done (FacetChain__init__ (inr self) (StackFacet x))).

Definition beside (self : FacetChain) (a : given) : outcome FacetChain :=
  if existsb is_BesideFacet (_chain self)
  then Failed (TypeError
    "cannot split plots beside each other that are already split with beside (can do beside and below)")
  else then_ (_asaxis self a) (fun x =>
       Done (FacetChain__init__ (inr self) (BesideFacet x))).

Definition below (self : FacetChain) (a : given) : outcome FacetChain :=
  if existsb is_BelowFacet (_chain self)
  then Failed (TypeError
    "cannot split plots below each other that are already split with below (can do beside and below)")
  else then_ (_asaxis self a) (fun x =>
       Done (FacetChain__init__ (inr self) (BelowFacet x))).

(** The two arguments of the plotting facets, left to right. *)
Definition axis_and_profile (self : FacetChain) (a profile : given)
    : outcome (option axis * option axis) :=
  then_ (_singleaxis self a) (fun a' =>
  then_ (_asaxis self a') (fun x =>
  then_ (_asaxis self profile) (fun p => Done (x, p)))).

Definition step (self : FacetChain) (a profile : given) : outcome Plotable :=
  if existsb is_StackFacet (_chain self)
  then Failed (TypeError "only area can be stacked")
  else then_ (axis_and_profile self a profile) (fun xp =>
       Done (Plotable__init__ (inr self) (StepFacet (fst xp) (snd xp)))).

Definition area (self : FacetChain) (a profile : given) : outcome Plotable :=
  then_ (axis_and_profile self a profile) (fun xp =>
  Done (Plotable__init__ (inr self) (AreaFacet (fst xp) (snd xp)))).

Definition error_bars_refused : error :=
  NotImplementedError
    "error bars are currently incompatible with splitting beside or below (Vega-Lite bug?)".

Definition line (self : FacetChain) (a profile : given) (error : bool) : outcome Plotable :=
  if existsb is_StackFacet (_chain self)
  then Failed (TypeError "only area can be stacked")
  else if error && existsb (fun x => is_BesideFacet x || is_BelowFacet x) (_chain self)
  then Failed error_bars_refused
  else then_ (axis_and_profile self a profile) (fun xp =>
       Done (Plotable__init__ (inr self) (LineFacet (fst xp) (snd xp) error))).

Definition marker (self : FacetChain) (a profile : given) (error : bool) : outcome Plotable :=
  if existsb is_StackFacet (_chain self)
  then Failed (TypeError "only area can be stacked")
  else if error && existsb (fun x => is_BesideFacet x || is_BelowFacet x) (_chain self)
  then Failed error_bars_refused
  else then_ (axis_and_profile self a profile) (fun xp =>
       Done (Plotable__init__ (inr self) (MarkerFacet (fst xp) (snd xp) error))).

(** The chains that can be built: a first facet on a histogram, then any
    of the four splitting methods. *)
Inductive built : FacetChain -> Prop :=
| built_first (h : hist) (item : facet) :
    built (FacetChain__init__ (inl h) item)
| built_overlay (c c' : FacetChain) (a : given) :
    built c -> overlay c a = Done c' -> built c'
| built_stack (c c' : FacetChain) (a : given) :
    built c -> stack c a = Done c' -> built c'
| built_beside (c c' : FacetChain) (a : given) :
    built c -> beside c a = Done c' -> built c'
| built_below (c c' : FacetChain) (a : given) :
    built c -> below c a = Done c' -> built c'.

Definition count (p : facet -> bool) (chain : list facet) : nat :=
  len (filter p chain).

End Chains.

End vega.

(** ** [makeorder], the expression that ranks the values of a stack *)

(** [str(i)] of a non-negative int. *)
Definition decimal (i : nat) : string :=
  DecimalString.NilEmpty.string_of_uint (Nat.to_uint i).

Section MakeOrder.

(** The host's [repr] on the values, which are strings. *)
Variable repr_string : string -> string.

Definition makeorder_template : string := "if(datum.{0} === {1}, {2}, {3})".

(** [makeorder(i, var, values)] of [Plotable.vegalite]. *)
Fixpoint makeorder (i : nat) (var : string) (values : list string) : result string :=
  let fmt := format (fun _ => Raise (TypeError "not an argument")) EmptyString in
  match values with
  | [] => Raise AssertionError
  | [v] =>
      fmt makeorder_template
        [ArgStr var; ArgStr (repr_string v); ArgStr (decimal i);
         ArgStr (decimal (i + 1))]
  | v :: rest =>
      inner <- makeorder (i + 1) var rest ;;
      fmt makeorder_template
        [ArgStr var; ArgStr (repr_string v); ArgStr (decimal i); ArgStr inner]
  end.

(** One conditional of the expression. *)
Definition conditional (var v rank otherwise : string) : string :=
  ("if(datum." ++ var ++ " === " ++ v ++ ", " ++ rank ++ ", " ++ otherwise ++ ")")%string.

(** The expression read from the outside in: the k-th value gets rank
    [i + k], and the rank after the last value closes the nest. *)
Fixpoint ranking (i : nat) (var : string) (values : list string) : string :=
  match values with
  | [] => decimal i
  | v :: rest => conditional var (repr_string v) (decimal i) (ranking (i + 1) var rest)
  end.

End MakeOrder.

(** The names the statements of the module bind: its imports and its
    classes.  Every other name of the module's namespace is one the host
    puts there, and starts with two underscores. *)
Definition imports_and_classes : list string :=
  [ "ast"; "itertools"; "math"; "meta"; "numpy";
    "ExpressionError"; "Dim"; "Expr"; "Const"; "Name"; "Call"; "UnaryOp";
    "BinOp"; "Relation"; "Interval"; "Logical"; "And"; "Or" ].

(** * Properties *)

Lemma fold_left_extend (xs : list pyobj) (acc : list pyobj) :
  fold_left (fun a x => a ++ args x) xs acc = acc ++ flat_map args xs.
Proof.
  revert acc; induction xs as [|x xs IH]; intros acc; simpl.
  - now rewrite app_nil_r.
  - now rewrite IH, app_assoc.
Qed.

Lemma product_of_one (L : list pyobj) :
  itertools.product [L] = map (fun x => [x]) L.
Proof.
  simpl; induction L as [|x L IH]; simpl; [reflexivity|now rewrite IH].
Qed.

Section Facts.

Variable host_binop : string -> value -> value -> result value.
Variable host_hasattr : hostobj -> string -> bool.
Variable host_set : list value -> list value.

Local Abbreviation recurse := (recurse host_binop host_hasattr host_set).
Local Abbreviation parse := (parse host_binop host_hasattr host_set).

(** A comparison met where relations or intervals are allowed never gets
    past the guard that reads [ops]. *)
Lemma compare_in_context (lhs : ast.expr) (ops : list ast.cmpop)
    (comparators : list ast.expr) (relations intervals : bool) :
  relations || intervals = true ->
  recurse (ast.Compare lhs ops comparators) relations intervals
  = Raise (NameError "ops").
Proof.
  destruct relations, intervals; simpl; intros H; try discriminate H; reflexivity.
Qed.

(** Once both sides are translated, a constant on the left is moved to
    the right with the entry of [inverse], which is the negated operator. *)
Lemma relation_constant_first (node : ast.expr) :
  relation "<" (Const (VInt 5)) (Name "x") node
  = Ok (Relation ">=" (Name "x") (Const (VInt 5))).
Proof. reflexivity. Qed.

(** C1.  Every single-operator comparison translated where relations are
    allowed raises [NameError] for the unbound [ops] instead of giving a
    [Relation]; so do the texts [5 < x] and [x > 5] through [parse]. *)
Theorem single_comparison_raises :
  (forall lhs op rhs intervals,
      recurse (ast.Compare lhs [op] [rhs]) true intervals = Raise (NameError "ops"))
  /\ parse (Text [ast.Expr (ast.Compare (lit 5) [ast.Lt] [var "x"])])
     = Raise (NameError "ops")
  /\ parse (Text [ast.Expr (ast.Compare (var "x") [ast.Gt] [lit 5])])
     = Raise (NameError "ops").
Proof.
  split; [|split]; try reflexivity.
Qed.

(** C2.  [(a + b) + c] and [a + (b + c)] both give a [BinOp] whose [args]
    is one tuple, nested differently in the two cases; neither is the 3-ary
    node with [args] = (a, b, c), and the two results differ. *)
Theorem chained_addition_nests (a b c : string) :
  let left_first := ast.BinOp (ast.BinOp (var a) ast.Add (var b)) ast.Add (var c) in
  let right_first := ast.BinOp (var a) ast.Add (ast.BinOp (var b) ast.Add (var c)) in
  recurse left_first true true
  = Ok (BinOp "+" [Tuple [Tuple [Name a; Name b]; Name c]])
  /\ recurse right_first true true
     = Ok (BinOp "+" [Tuple [Name a; Tuple [Name b; Name c]]])
  /\ recurse left_first true true <> Ok (BinOp "+" [Name a; Name b; Name c])
  /\ recurse right_first true true <> Ok (BinOp "+" [Name a; Name b; Name c])
  /\ recurse left_first true true <> recurse right_first true true.
Proof.
  simpl; repeat split; try reflexivity; intros H; discriminate H.
Qed.

(** C4.  A unary minus applied to an operand translated to
    [UnaryOp("-", x)] returns that [UnaryOp] node, not [x]; the same holds
    for [~]; so [--x] gives [UnaryOp("-", Name("x"))]. *)
Theorem double_unary_keeps_one (x : string) :
  (forall sym operand, unary sym (UnaryOp sym [operand]) = Ok (UnaryOp sym [operand]))
  /\ recurse (ast.UnaryOp ast.USub (ast.UnaryOp ast.USub (var x))) true true
     = Ok (UnaryOp "-" [Name x])
  /\ recurse (ast.UnaryOp ast.Invert (ast.UnaryOp ast.Invert (var x))) true true
     = Ok (UnaryOp "~" [Name x])
  /\ recurse (ast.UnaryOp ast.USub (ast.UnaryOp ast.USub (var x))) true true
     <> Ok (Name x).
Proof.
  repeat split; try reflexivity.
  - intros sym operand; unfold unary; simpl.
    now rewrite String.eqb_refl.
  - intros H; discriminate H.
Qed.

(** C5.  A node of a kind the translator has no case for is translated to
    [None], in every context, and [parse] wraps that [None] in a [Dim]:
    nothing is raised. *)
Theorem unhandled_node_returns_None (relations intervals : bool) :
  (forall v i ctx, recurse (ast.Subscript v i ctx) relations intervals = Ok PyNone)
  /\ (forall v a ctx, recurse (ast.Attribute v a ctx) relations intervals = Ok PyNone)
  /\ (forall elts ctx, recurse (ast.List elts ctx) relations intervals = Ok PyNone)
  /\ (forall elts ctx, recurse (ast.Tuple elts ctx) relations intervals = Ok PyNone)
  /\ (forall t b o, recurse (ast.IfExp t b o) relations intervals = Ok PyNone)
  /\ (forall b, recurse (ast.Lambda b) relations intervals = Ok PyNone)
  /\ (forall k ks vs, recurse (ast.Dict (k :: ks) vs) relations intervals = Ok PyNone)
  /\ parse (Text [ast.Expr (ast.Subscript (var "x") (lit 0) ast.Load)])
     = Ok {| names := []; expr := PyNone |}.
Proof. repeat split; reflexivity. Qed.

(** C6.  The chained comparisons [0 <= x < 10] and [0 < x <= 10], and every
    two-operator chain, raise [NameError] for the unbound [ops] where
    intervals are allowed: no [Interval] is built and the rejected
    orderings do not get their [ExpressionError]. *)
Theorem chained_comparison_raises :
  (forall lhs op0 op1 mid rhs relations,
      recurse (ast.Compare lhs [op0; op1] [mid; rhs]) relations true
      = Raise (NameError "ops"))
  /\ parse (Text [ast.Expr (ast.Compare (lit 0) [ast.LtE; ast.Lt] [var "x"; lit 10])])
     = Raise (NameError "ops")
  /\ parse (Text [ast.Expr (ast.Compare (lit 0) [ast.Lt; ast.LtE] [var "x"; lit 10])])
     = Raise (NameError "ops").
Proof.
  split; [|split]; try reflexivity.
  intros; apply compare_in_context. apply orb_true_r.
Qed.

Lemma BinOp_args (x : pyobj) :
  isinstance x cls.BinOp = true -> layout_ok x = true ->
  exists t, args x = [Tuple t].
Proof.
  destruct x; simpl; intros H; try discriminate H.
  destruct args0 as [|[] []]; cbn [layout_ok args]; intros L;
    try discriminate L; try (now eexists).
  all: destruct items as [|x [|y []]]; discriminate L.
Qed.

Lemma binop_layout (sym : string) (l r o : pyobj) :
  layout_ok l = true -> layout_ok r = true ->
  binop host_binop sym l r = Ok o -> layout_ok o = true.
Proof.
  intros Ll Lr; unfold binop.
  destruct (isinstance l cls.Const && isinstance r cls.Const) eqn:E.
  - destruct (lookup _ sym) as [f|]; cbn [bind]; [|discriminate].
    destruct (f _ _); cbn [bind]; [|discriminate].
    intros H; injection H as <-; reflexivity.
  - pose proof (BinOp_args l) as Al; pose proof (BinOp_args r) as Ar.
    destruct (isinstance l cls.BinOp);
      [destruct (Al eq_refl Ll) as [tl ->]|];
      (destruct (isinstance r cls.BinOp);
       [destruct (Ar eq_refl Lr) as [tr ->]|]);
      clear Al Ar; cbn [andb];
      repeat match goal with
             | |- context [String.eqb ?a ?b] => destruct (String.eqb a b)
             end;
      cbn [andb]; intros H; injection H as <-; cbn [layout_ok app];
      first [ reflexivity
            | rewrite E; reflexivity
            | destruct (isinstance l cls.Const); reflexivity ].
Qed.

Lemma sound_layout (o : pyobj) : sound o = true -> layout_ok o = true.
Proof.
  destruct o; cbn [sound]; intros H; apply andb_prop in H as [H _]; exact H.
Qed.

Lemma sound_components (o : pyobj) :
  sound o = true -> forall c, In c (components o) -> sound c = true.
Proof.
  destruct o; cbn [sound components]; intros H c Hc;
    apply andb_prop in H as [_ H]; try contradiction;
    try (now apply (proj1 (forallb_forall _ _) H)).
  - apply andb_prop in H as [Hx Hy].
    destruct Hc as [<-|[<-|[]]]; assumption.
  - apply andb_prop in H as [H Hh]; apply andb_prop in H as [Hx Hl].
    destruct Hc as [<-|[<-|[<-|[]]]]; assumption.
Qed.

Lemma sound_intro (o : pyobj) :
  layout_ok o = true -> (forall c, In c (components o) -> sound c = true) ->
  sound o = true.
Proof.
  intros L H; destruct o; cbn [sound]; rewrite L; cbn [andb components] in *;
    try reflexivity; try (apply forallb_forall; exact H).
  - rewrite !H; [reflexivity|right; left; reflexivity|left; reflexivity].
  - rewrite !H; [reflexivity|right; right; left; reflexivity
                |right; left; reflexivity|left; reflexivity].
Qed.

Lemma sound_args (o : pyobj) :
  sound o = true -> forall c, In c (args o) -> sound c = true.
Proof.
  intros H c Hc; apply (sound_components o H).
  destruct o; cbn [args components] in *; try contradiction; exact Hc.
Qed.

Lemma sound_Tuple (items : list pyobj) :
  (forall c, In c items -> sound c = true) -> sound (Tuple items) = true.
Proof. intros H; apply sound_intro; [reflexivity|exact H]. Qed.

Lemma comprehension_all (A B : Type) (p : A -> bool) (f : A -> result B)
    (Q : B -> Prop) (l : list A) :
  (forall x, In x l -> forall y, f x = Ok y -> Q y) ->
  forall ys, comprehension p f l = Ok ys -> forall y, In y ys -> Q y.
Proof.
  induction l as [|x l IH]; intros Hf ys; cbn [comprehension].
  - intros H; injection H as <-; intros y [].
  - assert (Hl : forall x', In x' l -> forall y, f x' = Ok y -> Q y)
      by (intros x' Hx'; apply Hf; right; exact Hx').
    destruct (p x); [|now apply IH].
    destruct (f x) as [y0|] eqn:E; cbn [bind]; [|discriminate].
    destruct (comprehension p f l) as [ys0|]; cbn [bind]; [|discriminate].
    intros H; injection H as <-; intros y [<-|Hy].
    + apply (Hf x); [left; reflexivity|exact E].
    + now apply (IH Hl ys0).
Qed.

Lemma not__sound (e : pyobj) :
  forall o, sound e = true -> not_ e = Ok o -> sound o = true.
Proof.
  induction e as [e IH] using pyobj_components_ind.
  rewrite Forall_forall in IH.
  intros o Hs H.
  assert (Hc : forall x, In x (components e) ->
                forall y, not_ x = Ok y -> sound y = true)
    by (intros x Hx y; apply IH; [exact Hx|now apply (sound_components e)]).
  clear IH; destruct e; cbn [not_] in H; try discriminate H;
    cbn [components] in Hc.
  - destruct (lookup inverse cmp); cbn [bind] in H; [|discriminate H].
    injection H as <-; apply sound_intro; [reflexivity|].
    exact (sound_components _ Hs).
  - destruct (for_each not_ args0) as [xs|] eqn:E; cbn [bind] in H;
      [|discriminate H].
    injection H as <-; apply sound_intro; [reflexivity|].
    exact (comprehension_all _ _ _ _ Hc E).
  - revert H.
    destruct (comprehension (fun x => negb _) not_ args0) as [nl|] eqn:E1;
      cbn [bind]; [|discriminate].
    destruct (comprehension (fun x => isinstance x cls.And) not_ args0)
      as [lg|] eqn:E2; cbn [bind]; [|discriminate].
    intros H.
    pose proof (comprehension_all _ _ _ _ Hc E1) as Hnl.
    pose proof (comprehension_all _ _ _ _ Hc E2) as Hlg.
    destruct (Nat.eqb _ 0); injection H as <-;
      (apply sound_intro; [reflexivity|]); cbn [components]; [exact Hnl|].
    intros c Hin; apply in_map_iff in Hin as [x [<- Hx]].
    apply sound_intro; [reflexivity|].
    intros c [<-|Hin]; [now apply Hlg|now apply Hnl].
Qed.

Lemma and__sound (exprs : list pyobj) (o : pyobj) :
  (forall x, In x exprs -> sound x = true) ->
  and_ exprs = Ok o -> sound o = true.
Proof.
  intros Hs; unfold and_; cbn [args].
  rewrite product_of_one, !map_map, fold_left_extend.
  set (ors := filter _ exprs ++ [_]).
  assert (Hb : forall b, In b (map (fun x => And [Tuple (args x)]) ors) ->
               sound b = true).
  { intros b Hb; apply in_map_iff in Hb as [x [<- Hx]].
    apply sound_intro; [reflexivity|]; intros t [<-|[]].
    apply sound_Tuple; intros c Hc.
    subst ors; apply in_app_or in Hx as [Hx|[<-|[]]].
    - apply filter_In in Hx as [Hx _].
      exact (sound_args x (Hs x Hx) c Hc).
    - cbn [args] in Hc; apply in_app_or in Hc as [Hc|Hc].
      + apply filter_In in Hc as [Hc _]; now apply Hs.
      + apply in_flat_map in Hc as [y [Hy Hc]].
        apply filter_In in Hy as [Hy _].
        exact (sound_args y (Hs y Hy) c Hc). }
  destruct (map _ ors) as [|b [|b' bs]]; intros H; try discriminate H;
    injection H as <-.
  - apply Hb; left; reflexivity.
  - apply sound_intro; [reflexivity|exact Hb].
Qed.

Lemma or__sound (exprs : list pyobj) (o : pyobj) :
  (forall x, In x exprs -> sound x = true) ->
  or_ exprs = Ok o -> sound o = true.
Proof.
  intros Hs; unfold or_; rewrite fold_left_extend.
  intros H; injection H as <-.
  apply sound_intro; [reflexivity|]; cbn [components]; intros c Hc.
  apply in_app_or in Hc as [Hc|Hc].
  - apply filter_In in Hc as [Hc _]; now apply Hs.
  - apply in_flat_map in Hc as [y [Hy Hc]].
    apply filter_In in Hy as [Hy _].
    exact (sound_args y (Hs y Hy) c Hc).
Qed.

Lemma unary_sound (sym : string) (content o : pyobj) :
  sound content = true -> unary sym content = Ok o -> sound o = true.
Proof.
  intros Hs; unfold unary.
  destruct (_ && _); intros H; injection H as <-; [exact Hs|].
  apply sound_intro; [reflexivity|]; intros c [<-|[]]; exact Hs.
Qed.

Lemma binop_sound (sym : string) (l r o : pyobj) :
  sound l = true -> sound r = true ->
  binop host_binop sym l r = Ok o -> sound o = true.
Proof.
  intros Hl Hr H.
  assert (L : layout_ok o = true)
    by (eapply binop_layout; [apply sound_layout; exact Hl
                             |apply sound_layout; exact Hr|exact H]).
  apply sound_intro; [exact L|clear L].
  unfold binop in H.
  destruct (isinstance l cls.Const && isinstance r cls.Const).
  - destruct (lookup _ sym) as [f|]; cbn [bind] in H; [|discriminate H].
    destruct (f _ _); cbn [bind] in H; [|discriminate H].
    injection H as <-; intros c [].
  - repeat match type of H with
           | context [if ?c then _ else _] => destruct c
           end;
      injection H as <-; intros t [<-|[]]; apply sound_Tuple; intros c Hc;
      repeat (apply in_app_or in Hc as [Hc|Hc]);
      try (destruct Hc as [<-|[<-|[]]]; assumption);
      try (destruct Hc as [<-|[]]; assumption);
      try (destruct Hc as [<-|Hc]; [assumption|]);
      first [ exact (sound_args l Hl c Hc) | exact (sound_args r Hr c Hc) ].
Qed.

(** Whatever node is translated, in whatever context, every [BinOp] inside
    the result has the layout above. *)
Lemma recurse_sound (node : ast.expr) :
  forall relations intervals o,
    recurse node relations intervals = Ok o -> sound o = true.
Proof.
  induction node as [node IH] using expr_children_ind.
  rewrite Forall_forall in IH.
  intros relations intervals o H.
  destruct node; simpl in H; cbn [children] in IH.
  - injection H as <-; reflexivity.
  - injection H as <-; reflexivity.
  - destruct (Nat.eqb _ 0); injection H as <-; reflexivity.
  - destruct (for_each _ elts) as [content|]; simpl in H; [|discriminate H].
    destruct (forallb _ content); [|discriminate H].
    destruct (set_ _ _); simpl in H; [|discriminate H].
    injection H as <-; reflexivity.
  - destruct ctx; injection H as <-; reflexivity.
  - destruct relations; simpl in H; [discriminate H|].
    destruct intervals; simpl in H; discriminate H.
  - pose proof (IH node (or_introl eq_refl)) as IHn.
    destruct op.
    + destruct (recurse node false false) eqn:E; simpl in H; [|discriminate H].
      eapply unary_sound; [eapply IHn|]; eassumption.
    + destruct relations; [|discriminate H].
      destruct (recurse node true false) eqn:E; simpl in H; [|discriminate H].
      eapply not__sound; [eapply IHn|]; eassumption.
    + eapply IHn; eassumption.
    + destruct (recurse node false false) eqn:E; simpl in H; [|discriminate H].
      eapply unary_sound; [eapply IHn|]; eassumption.
  - destruct relations; [|discriminate H].
    destruct (for_each _ values) as [xs|] eqn:E; simpl in H; [|discriminate H].
    assert (Hxs : forall x, In x xs -> sound x = true).
    { unfold for_each in E.
      eapply comprehension_all; [|exact E].
      intros x Hx y Hy; cbv beta in Hy; exact (IH x Hx _ _ y Hy). }
    destruct op.
    + eapply and__sound; eassumption.
    + eapply or__sound; eassumption.
  - destruct (binop_symbol op) as [sym|]; [|discriminate H].
    destruct (recurse node1 false false) as [l|] eqn:E1; simpl in H; [|discriminate H].
    destruct (recurse node2 false false) as [r|] eqn:E2; simpl in H; [|discriminate H].
    eapply binop_sound; [eapply (IH node1)|eapply (IH node2)|exact H];
      try eassumption; [left|right; left]; reflexivity.
  - assert (Ha : forall xs, for_each (fun x => recurse x false false) args0 = Ok xs ->
                 forall name, sound (Call name [Tuple xs]) = true).
    { intros xs E name.
      apply sound_intro; [reflexivity|]; intros t [<-|[]].
      apply sound_Tuple; unfold for_each in E.
      eapply comprehension_all; [|exact E].
      intros x Hx y Hy; cbv beta in Hy; exact (IH x Hx _ _ y Hy). }
    destruct (expr_id node); simpl in H; [|discriminate H].
    destruct (in_recognized_values a); simpl in H.
    + destruct (for_each _ args0) eqn:E; simpl in H; [|discriminate H].
      injection H as <-; now apply Ha.
    + destruct (resolve _ node); simpl in H; [|discriminate H].
      destruct (recognized_get _) as [[name|]|]; simpl in H;
        try discriminate H.
      destruct (for_each _ args0) eqn:E; simpl in H; [|discriminate H].
      injection H as <-; now apply Ha.
  - injection H as <-; reflexivity.
  - injection H as <-; reflexivity.
  - injection H as <-; reflexivity.
  - injection H as <-; reflexivity.
  - injection H as <-; reflexivity.
  - injection H as <-; reflexivity.
Qed.

Lemma inside_components (o sub : pyobj) :
  In sub (inside o) ->
  sub = o \/ exists c, In c (components o) /\ In sub (inside c).
Proof.
  destruct o; cbn [inside components]; intros [<-|H]; try (now left);
    try contradiction; right;
    try (apply in_flat_map in H; exact H).
  - apply in_app_or in H as [H|H]; eexists; split; try exact H;
      [left|right; left]; reflexivity.
  - apply in_app_or in H as [H|H]; [|apply in_app_or in H as [H|H]];
      eexists; split; try exact H;
      [left|right; left|right; right; left]; reflexivity.
Qed.

Lemma sound_inside (o : pyobj) :
  sound o = true -> forall sub, In sub (inside o) -> layout_ok sub = true.
Proof.
  induction o as [o IH] using pyobj_components_ind.
  rewrite Forall_forall in IH.
  intros Hs sub Hin.
  apply inside_components in Hin as [->|[c [Hc Hin]]].
  - now apply sound_layout.
  - apply (IH c Hc); [now apply (sound_components o)|exact Hin].
Qed.

Lemma layout_no_two_constants (o : pyobj) :
  layout_ok o = true -> two_constant_operands o = false.
Proof.
  destruct (two_constant_operands o) eqn:T; [|reflexivity].
  intros L; exfalso; unfold two_constant_operands in T.
  repeat match type of T with
         | context [match ?x with _ => _ end] => destruct x; try discriminate T
         end;
    discriminate L.
Qed.

(** The translation of a binary-operator node, as one equation. *)
Lemma recurse_BinOp (lhs : ast.expr) (op : ast.operator) (rhs : ast.expr)
    (relations intervals : bool) :
  recurse (ast.BinOp lhs op rhs) relations intervals
  = match binop_symbol op with
    | Some sym =>
        l <- recurse lhs false false ;;
        r <- recurse rhs false false ;;
        binop host_binop sym l r
    | None => Raise (ExpressionError
        "only binary operators supported: '+', '-', '*', '/', '//', '%', '**', '|', '&', and '^'"
        (ast.BinOp lhs op rhs))
    end.
Proof. reflexivity. Qed.

(** With two constants the operator's entry of [calculate] is applied to
    their values. *)
Lemma binop_of_constants (sym : string) (l r : value)
    (f : value -> value -> result value) :
  lookup (calculate host_binop) sym = Ok f ->
  binop host_binop sym (Const l) (Const r) = (v <- f l r ;; Ok (Const v)).
Proof.
  intros E; unfold binop; cbn [isinstance type cls.issubclass andb].
  rewrite E; reflexivity.
Qed.

(** C8.  A binary node whose operands translate to [Const] is translated
    to the [Const] of the operator's result, for each of the ten operators.
    On ints the result is the sum, difference, product, floor quotient,
    remainder, power, and the bitwise or, and, exclusive or of the two
    values; a zero divisor raises [ZeroDivisionError], and the quotient [/]
    and a negative power are the host's.  On other constants the result is
    the host's evaluation of the same operator.  In particular [2 + 3]
    gives [Const(5)], and no [BinOp] with two constant operands occurs
    anywhere in the result of a translation. *)
Theorem constant_operands_fold :
  (forall lhs rhs a b relations intervals,
      recurse lhs false false = Ok (Const (VInt a)) ->
      recurse rhs false false = Ok (Const (VInt b)) ->
      let fold op := recurse (ast.BinOp lhs op rhs) relations intervals in
      let host sym := v <- host_binop sym (VInt a) (VInt b) ;; Ok (Const v) in
      fold ast.Add = Ok (Const (VInt (a + b)%Z))
      /\ fold ast.Sub = Ok (Const (VInt (a - b)%Z))
      /\ fold ast.Mult = Ok (Const (VInt (a * b)%Z))
      /\ fold ast.Div
         = (if (b =? 0)%Z then Raise ZeroDivisionError else host "/")
      /\ fold ast.FloorDiv
         = (if (b =? 0)%Z then Raise ZeroDivisionError
            else Ok (Const (VInt (a / b)%Z)))
      /\ fold ast.Mod
         = (if (b =? 0)%Z then Raise ZeroDivisionError
            else Ok (Const (VInt (a mod b)%Z)))
      /\ fold ast.Pow
         = (if (0 <=? b)%Z then Ok (Const (VInt (a ^ b)%Z))
            else if (a =? 0)%Z then Raise ZeroDivisionError else host "**")
      /\ fold ast.BitOr = Ok (Const (VInt (Z.lor a b)))
      /\ fold ast.BitAnd = Ok (Const (VInt (Z.land a b)))
      /\ fold ast.BitXor = Ok (Const (VInt (Z.lxor a b))))
  /\ (forall lhs rhs l r relations intervals,
         recurse lhs false false = Ok (Const l) ->
         recurse rhs false false = Ok (Const r) ->
         both_ints l r = false ->
         let fold op := recurse (ast.BinOp lhs op rhs) relations intervals in
         let host sym := v <- host_binop sym l r ;; Ok (Const v) in
         fold ast.Add = host "+"
         /\ fold ast.Sub = host "-"
         /\ fold ast.Mult = host "*"
         /\ fold ast.Div = host "/"
         /\ fold ast.FloorDiv = host "//"
         /\ fold ast.Mod = host "%"
         /\ fold ast.Pow = host "**"
         /\ fold ast.BitOr = host "|"
         /\ fold ast.BitAnd = host "&"
         /\ fold ast.BitXor = host "^")
  /\ recurse (ast.BinOp (lit 2) ast.Add (lit 3)) true true = Ok (Const (VInt 5))
  /\ (forall node relations intervals o sub,
         recurse node relations intervals = Ok o ->
         In sub (inside o) ->
         two_constant_operands sub = false).
Proof.
  split; [|split; [|split]].
  - intros lhs rhs a b relations intervals Hl Hr; cbn zeta.
    repeat split; rewrite recurse_BinOp; cbn [binop_symbol];
      rewrite Hl, Hr; cbn [bind];
      erewrite binop_of_constants by reflexivity;
      unfold py_add, py_sub, py_mul, py_div, py_floordiv, py_mod, py_pow,
        py_or, py_and, py_xor, on_ints;
      try reflexivity;
      try (destruct (b =? 0)%Z; reflexivity);
      destruct (0 <=? b)%Z; [reflexivity|];
      destruct (a =? 0)%Z; reflexivity.
  - intros lhs rhs l r relations intervals Hl Hr Hn; cbn zeta.
    repeat split; rewrite recurse_BinOp; cbn [binop_symbol];
      rewrite Hl, Hr; cbn [bind];
      destruct l as [[i|bits]|s|elts]; try reflexivity;
      destruct r as [[j|bits']|s'|elts']; try reflexivity;
      discriminate Hn.
  - reflexivity.
  - intros node relations intervals o sub H Hin.
    apply layout_no_two_constants.
    apply (sound_inside o); [eapply recurse_sound; exact H|exact Hin].
Qed.

(** C9.  An input that is not reducible to one expression (a function body
    that is not a single return statement, a text that is not a single
    expression statement) is refused with the container error, a
    [TypeError], which is not the class [ExpressionError] of the grammar
    errors. *)
Theorem container_error_kind (e : expression) :
  reducible e = false ->
  parse e = Raise container_error
  /\ is_TypeError container_error = true
  /\ is_ExpressionError container_error = false.
Proof.
  intros H; repeat split.
  destruct e as [[body|b]|body]; try discriminate H.
  - destruct body as [|[] []]; try discriminate H; reflexivity.
  - destruct body as [|[] []]; try discriminate H; reflexivity.
Qed.

End Facts.

(** ** The combinators on their own *)

Section Conjunction.

Variable host_binop : string -> value -> value -> result value.
Variable host_hasattr : hostobj -> string -> bool.
Variable host_set : list value -> list value.

(** C3.  For relations A, B, C, [and_] applied to (And(A,B), C) does not
    return the conjunction And(A, B, C): it returns an [And] whose [args]
    is one tuple, (C, A, B).  With an [Or] operand no Cartesian product is
    formed: applied to (Or(A,B), C) it returns two branches, one per group,
    each an [And] holding the tuple of its group, where the product has the
    branches And(A, C) and And(B, C).  The same shows on the text
    [a and b], translated to an [And] with the single operand (a, b). *)
Theorem and__keeps_each_group_as_one_tuple (A B : pyobj) (cmp : string)
    (arg const : pyobj) (a b : string) :
  let C := Relation cmp arg const in
  and_ [And [A; B]; C] = Ok (And [Tuple [C; A; B]])
  /\ and_ [And [A; B]; C] <> Ok (And [A; B; C])
  /\ and_ [Or [A; B]; C] = Ok (Or [And [Tuple [A; B]]; And [Tuple [C]]])
  /\ and_ [Or [A; B]; C] <> Ok (Or [And [A; C]; And [B; C]])
  /\ parse host_binop host_hasattr host_set
       (Text [ast.Expr (ast.BoolOp ast.And [var a; var b])])
     = Ok {| names := []; expr := And [Tuple [Name a; Name b]] |}
  /\ parse host_binop host_hasattr host_set
       (Text [ast.Expr (ast.BoolOp ast.And [var a; var b])])
     <> Ok {| names := []; expr := And [Name a; Name b] |}.
Proof.
  cbn zeta.
  assert (E1 : and_ [And [A; B]; Relation cmp arg const]
               = Ok (And [Tuple [Relation cmp arg const; A; B]]))
    by reflexivity.
  assert (E2 : and_ [Or [A; B]; Relation cmp arg const]
               = Ok (Or [And [Tuple [A; B]]; And [Tuple [Relation cmp arg const]]]))
    by reflexivity.
  assert (E3 : parse host_binop host_hasattr host_set
                 (Text [ast.Expr (ast.BoolOp ast.And [var a; var b])])
               = Ok {| names := []; expr := And [Tuple [Name a; Name b]] |})
    by reflexivity.
  rewrite E1, E2, E3.
  repeat split; intros H; discriminate H.
Qed.

End Conjunction.

(** C7 as amended.  For relations A, B, C, [or_] applied to (Or(A,B), C)
    flattens the nested [Or] and returns the 3-ary Or(C, A, B); in general
    the result lists the operands that are not [Or] first, in argument
    order, then the branches of the [Or] operands, in argument order. *)
Theorem or__other_operands_first (A B C : pyobj) :
  isinstance A cls.Relation = true ->
  isinstance B cls.Relation = true ->
  isinstance C cls.Relation = true ->
  or_ [Or [A; B]; C] = Ok (Or [C; A; B])
  /\ (forall exprs,
         or_ exprs
         = Ok (Or (filter (fun x => negb (isinstance x cls.Or)) exprs
                   ++ flat_map args (filter (fun x => isinstance x cls.Or) exprs)))).
Proof.
  intros _ _ HC; split.
  - destruct C; try discriminate HC; reflexivity.
  - intros exprs; unfold or_; now rewrite fold_left_extend.
Qed.

(** C10.  [str] of an [And] is the five-character text [" and "] and [str]
    of an [Or] is [" or "], whatever the children are and whatever their
    own renderings would be. *)
Theorem logical_str_is_constant
    (str : pyobj -> result string) (generator_repr : string) (children : list pyobj) :
  And__str__ str generator_repr (And children) = Ok " and "
  /\ String.length " and " = 5
  /\ Or__str__ str generator_repr (Or children) = Ok " or ".
Proof. repeat split. Qed.

(** [format] does substitute when the template has fields, and renders an
    object through [str] only then. *)
Lemma format_substitutes (str : pyobj -> result string) (g : string) :
  format str g "{0} {1} {2}" [ArgStr "x"; ArgStr ">"; ArgStr "5"] = Ok "x > 5"
  /\ format str g "{}{{}}" [ArgStr "x"] = Ok "x{}"
  /\ format str g "{1}" [ArgStr "x"] = Raise IndexError
  /\ (str rel_a = Ok "a == 1" ->
      format str g "({0})" [ArgObj rel_a] = Ok "(a == 1)").
Proof.
  repeat split.
  unfold rel_a; intros H; vm_compute; rewrite H; reflexivity.
Qed.

(** ** Concrete instances *)

Lemma or__counterexample :
  or_ [Or [rel_a; rel_b]; rel_c] <> Ok (Or [rel_a; rel_b; rel_c]).
Proof. intros H; discriminate H. Qed.

Lemma or__other_operands_first_witness :
  or_ [Or [rel_a; rel_b]; rel_c] = Ok (Or [rel_c; rel_a; rel_b]).
Proof.
  exact (proj1 (or__other_operands_first rel_a rel_b rel_c eq_refl eq_refl eq_refl)).
Defined.

Lemma constant_operands_fold_witness :
  recurse ints_only_binop no_attributes as_written
    (ast.BinOp (lit 7) ast.Sub (lit 10)) true true
  = Ok (Const (VInt (-3)))
  /\ recurse ints_only_binop no_attributes as_written
       (ast.BinOp (lit (-7)) ast.FloorDiv (lit 2)) true true
     = Ok (Const (VInt (-4)))
  /\ recurse ints_only_binop no_attributes as_written
       (ast.BinOp (lit 1) ast.Mod (lit 0)) true true
     = Raise ZeroDivisionError.
Proof.
  split; [|split].
  - refine (proj1 (proj2 (proj1 (constant_operands_fold ints_only_binop
              no_attributes as_written) (lit 7) (lit 10) 7%Z 10%Z true true _ _)));
      reflexivity.
  - refine (proj1 (proj2 (proj2 (proj2 (proj2 (proj1 (constant_operands_fold
              ints_only_binop no_attributes as_written)
              (lit (-7)) (lit 2) (-7)%Z 2%Z true true _ _))))));
      reflexivity.
  - refine (proj1 (proj2 (proj2 (proj2 (proj2 (proj2 (proj1
              (constant_operands_fold ints_only_binop no_attributes as_written)
              (lit 1) (lit 0) 1%Z 0%Z true true _ _)))))));
      reflexivity.
Defined.

Lemma container_error_kind_witness :
  parse ints_only_binop no_attributes as_written
    (Callable (FunctionDef [ast.Pass; ast.Return (var "x")]))
  = Raise container_error.
Proof.
  refine (proj1 (container_error_kind ints_only_binop no_attributes as_written
            (Callable (FunctionDef [ast.Pass; ast.Return (var "x")])) _));
    reflexivity.
Defined.

(** * Further properties *)

(** ** Lists, tables and comprehensions *)

Lemma filter_all (A : Type) (p : A -> bool) (l : list A) :
  forallb p l = true -> filter p l = l.
Proof.
  induction l as [|x l IH]; cbn [forallb filter]; [reflexivity|].
  intros H; apply andb_prop in H as [Hx Hl]; rewrite Hx, IH; auto.
Qed.

Lemma filter_none (A : Type) (p : A -> bool) (l : list A) :
  forallb (fun x => negb (p x)) l = true -> filter p l = [].
Proof.
  induction l as [|x l IH]; cbn [forallb filter]; [reflexivity|].
  intros H; apply andb_prop in H as [Hx Hl].
  apply negb_true_iff in Hx; rewrite Hx; auto.
Qed.

Lemma forallb_false_witness (A : Type) (p : A -> bool) (l : list A) :
  forallb p l = false -> exists x, In x l /\ p x = false.
Proof.
  induction l as [|x l IH]; cbn [forallb]; [discriminate|].
  destruct (p x) eqn:E; cbn [andb]; intros H.
  - destruct (IH H) as [y [Hy Hp]]; exists y; split; [right|]; assumption.
  - exists x; split; [left; reflexivity|exact E].
Qed.

Lemma lookup_unknown (V : Type) (table : list (string * V)) (key : string) :
  existsb (fun kv => String.eqb (fst kv) key) table = false ->
  lookup table key = Raise (KeyError key).
Proof.
  induction table as [|[k v] table IH]; cbn [existsb lookup fst]; [reflexivity|].
  intros H; apply orb_false_elim in H as [Hk Ht]; rewrite Hk; auto.
Qed.

Lemma inverse_involutive (cmp : string) :
  known_cmp cmp = true ->
  exists c, lookup inverse cmp = Ok c /\ lookup inverse c = Ok cmp
            /\ known_cmp c = true.
Proof.
  unfold known_cmp; intros H.
  apply existsb_exists in H as [[k v] [Hin Hk]].
  apply String.eqb_eq in Hk; cbn [fst] in Hk; subst k.
  unfold inverse in Hin; cbn [In] in Hin.
  repeat (destruct Hin as [Hin|Hin];
          [injection Hin as <- <-; eexists; repeat split; reflexivity|]).
  contradiction.
Qed.

Lemma comprehension_fails (A B : Type) (p : A -> bool) (f : A -> result B)
    (l : list A) :
  (exists x, In x l /\ p x = true /\ is_Raise (f x) = true) ->
  is_Raise (comprehension p f l) = true.
Proof.
  induction l as [|h l IH]; intros [x [Hin [Hp Hf]]]; [contradiction|].
  cbn [comprehension].
  destruct Hin as [->|Hin].
  - rewrite Hp; destruct (f x); [discriminate Hf|reflexivity].
  - assert (Hl : is_Raise (comprehension p f l) = true)
      by (apply IH; exists x; auto).
    destruct (p h); [|exact Hl].
    destruct (f h); cbn [bind]; [|reflexivity].
    destruct (comprehension p f l); [discriminate Hl|reflexivity].
Qed.

Lemma comprehension_succeeds (A B : Type) (p : A -> bool) (f : A -> result B)
    (l : list A) :
  (forall x, In x l -> p x = true -> is_Raise (f x) = false) ->
  exists ys, comprehension p f l = Ok ys.
Proof.
  induction l as [|h l IH]; intros H; cbn [comprehension]; [now eexists|].
  destruct IH as [ys Hys]; [intros x Hx; apply H; right; exact Hx|].
  rewrite Hys.
  destruct (p h) eqn:Hp; [|now eexists].
  specialize (H h (or_introl eq_refl) Hp).
  destruct (f h); [|discriminate H]; cbn [bind]; now eexists.
Qed.

Lemma comprehension_none (A B : Type) (p : A -> bool) (f : A -> result B)
    (l : list A) :
  forallb (fun x => negb (p x)) l = true -> comprehension p f l = Ok [].
Proof.
  induction l as [|h l IH]; cbn [forallb comprehension]; [reflexivity|].
  intros H; apply andb_prop in H as [Hh Hl].
  apply negb_true_iff in Hh; rewrite Hh; auto.
Qed.

Lemma comprehension_every (A B : Type) (p : A -> bool) (f : A -> result B)
    (l : list A) :
  forallb p l = true -> comprehension p f l = for_each f l.
Proof.
  unfold for_each.
  induction l as [|h l IH]; cbn [forallb comprehension]; [reflexivity|].
  intros H; apply andb_prop in H as [Hh Hl]; rewrite Hh, IH; auto.
Qed.

(** ** Negation *)

Lemma not__on_negatable (o : pyobj) :
  negatable o = true -> exists r, not_ o = Ok r /\ negatable r = true.
Proof.
  induction o as [o IH] using pyobj_components_ind.
  rewrite Forall_forall in IH.
  destruct o; cbn [negatable not_ components] in *; try discriminate.
  - intros H; destruct (inverse_involutive cmp H) as [c [-> [_ Hc]]].
    cbn [bind]; eexists; split; [reflexivity|exact Hc].
  - intros H; rewrite forallb_forall in H.
    destruct (comprehension_succeeds (fun _ => true) not_ args0) as [xs Hxs].
    { intros x Hx _; destruct (IH x Hx (H x Hx)) as [r [-> _]]; reflexivity. }
    unfold for_each; rewrite Hxs; cbn [bind].
    eexists; split; [reflexivity|]; cbn [negatable].
    apply forallb_forall.
    refine (comprehension_all _ _ _ _ _ Hxs).
    intros x Hx y Hy; destruct (IH x Hx (H x Hx)) as [r [Hr Hn]].
    rewrite Hr in Hy; injection Hy as <-; exact Hn.
  - intros H; rewrite forallb_forall in H.
    assert (Hall : forall p ys, comprehension p not_ args0 = Ok ys ->
                   forall y, In y ys -> negatable y = true).
    { intros p ys Hys; refine (comprehension_all _ _ _ _ _ Hys).
      intros x Hx y Hy; destruct (IH x Hx (H x Hx)) as [r [Hr Hn]].
      rewrite Hr in Hy; injection Hy as <-; exact Hn. }
    assert (Hex : forall p, exists ys, comprehension p not_ args0 = Ok ys).
    { intros p; apply comprehension_succeeds.
      intros x Hx _; destruct (IH x Hx (H x Hx)) as [r [-> _]]; reflexivity. }
    destruct (Hex (fun x => negb (isinstance x cls.And))) as [nl Hnl].
    destruct (Hex (fun x => isinstance x cls.And)) as [lg Hlg].
    rewrite Hnl, Hlg; cbn [bind].
    pose proof (Hall _ _ Hnl) as Nnl; pose proof (Hall _ _ Hlg) as Nlg.
    destruct (Nat.eqb _ 0); eexists; (split; [reflexivity|]); cbn [negatable];
      apply forallb_forall; [exact Nnl|].
    intros b Hb; apply in_map_iff in Hb as [x [<- Hx]].
    cbn [negatable app forallb]; rewrite (Nlg x Hx); cbn [andb].
    apply forallb_forall; exact Nnl.
Qed.

Lemma not__off_negatable (o : pyobj) :
  negatable o = false -> is_Raise (not_ o) = true.
Proof.
  induction o as [o IH] using pyobj_components_ind.
  rewrite Forall_forall in IH.
  destruct o; cbn [negatable not_ components] in *; try reflexivity.
  - intros H; unfold known_cmp in H.
    now rewrite (lookup_unknown inverse cmp H).
  - intros H; apply forallb_false_witness in H as [x [Hx Hn]].
    assert (Hf : is_Raise (for_each not_ args0) = true).
    { apply comprehension_fails; exists x; repeat split; auto. }
    destruct (for_each not_ args0); [discriminate Hf|reflexivity].
  - intros H; apply forallb_false_witness in H as [x [Hx Hn]].
    destruct (comprehension (fun x => negb (isinstance x cls.And)) not_ args0)
      as [nl|] eqn:E1; cbn [bind]; [|reflexivity].
    assert (Hf : is_Raise (comprehension (fun x => isinstance x cls.And) not_ args0)
                 = true).
    { apply comprehension_fails; exists x; repeat split; auto.
      destruct (isinstance x cls.And) eqn:Ex; [reflexivity|].
      assert (Hf1 : is_Raise (comprehension
                      (fun x => negb (isinstance x cls.And)) not_ args0) = true).
      { apply comprehension_fails; exists x; repeat split; auto.
        now rewrite Ex. }
      rewrite E1 in Hf1; discriminate Hf1. }
    destruct (comprehension (fun x => isinstance x cls.And) not_ args0);
      [discriminate Hf|reflexivity].
Qed.

Lemma simple_negation (x : pyobj) :
  simple x = true ->
  exists y, not_ x = Ok y /\ simple y = true /\ not_ y = Ok x.
Proof.
  intros H; destruct x; try discriminate H.
  assert (K : known_cmp cmp = true) by exact H.
  destruct (inverse_involutive cmp K) as [c [H1 [H2 Hc]]].
  exists (Relation c x1 x2); cbn [not_].
  rewrite H1, H2; repeat split; exact Hc.
Qed.

Lemma simple_not_And (l : list pyobj) :
  forallb simple l = true ->
  forallb (fun x => negb (isinstance x cls.And)) l = true.
Proof.
  intros H; apply forallb_forall; intros x Hx.
  rewrite forallb_forall in H; specialize (H x Hx).
  unfold simple in H; destruct x; try discriminate H; reflexivity.
Qed.

Lemma simple_negations (l : list pyobj) :
  forallb simple l = true ->
  exists l', for_each not_ l = Ok l' /\ forallb simple l' = true
             /\ for_each not_ l' = Ok l /\ len l' = len l.
Proof.
  unfold for_each.
  induction l as [|x l IH]; cbn [forallb comprehension].
  - exists []; repeat split.
  - intros H; apply andb_prop in H as [Hx Hl].
    destruct (simple_negation x Hx) as [y [Hy [Sy Hyx]]].
    destruct (IH Hl) as [l' [H1 [H2 [H3 H4]]]].
    exists (y :: l'); split; [|split; [|split]].
    + cbn [comprehension]; rewrite Hy; cbn [bind]; rewrite H1; reflexivity.
    + cbn [forallb]; rewrite Sy, H2; reflexivity.
    + cbn [comprehension]; rewrite Hyx; cbn [bind]; rewrite H3; reflexivity.
    + unfold len in *; cbn [List.length]; now f_equal.
Qed.

(** X1.  Negating a relation twice gives the relation back when its
    operator is one of the eight of the table; with any other operator
    the first negation raises [KeyError] for that operator. *)
Theorem relation_double_negation (cmp : string) (arg const : pyobj) :
  if known_cmp cmp
  then (r <- not_ (Relation cmp arg const) ;; not_ r)
       = Ok (Relation cmp arg const)
  else not_ (Relation cmp arg const) = Raise (KeyError cmp).
Proof.
  destruct (known_cmp cmp) eqn:H.
  - destruct (inverse_involutive cmp H) as [c [H1 [H2 _]]].
    cbn [not_]; rewrite H1; cbn [bind not_]; rewrite H2; reflexivity.
  - cbn [not_]; unfold known_cmp in H.
    now rewrite (lookup_unknown inverse cmp H).
Qed.

(** X2.  On operands that are all relations with known operators, [not_]
    follows De Morgan: an [And] becomes the [Or] of the negated operands
    and an [Or] becomes their [And], in the same order; negating the result
    again gives the original node back. *)
Theorem de_morgan_on_relations (l : list pyobj) :
  forallb simple l = true ->
  exists l',
    for_each not_ l = Ok l' /\ len l' = len l
    /\ not_ (And l) = Ok (Or l') /\ not_ (Or l) = Ok (And l')
    /\ not_ (Or l') = Ok (And l) /\ not_ (And l') = Ok (Or l).
Proof.
  intros H; destruct (simple_negations l H) as [l' [H1 [H2 [H3 H4]]]].
  exists l'; split; [exact H1|split; [exact H4|]].
  pose proof (simple_not_And l H) as Nl.
  pose proof (simple_not_And l' H2) as Nl'.
  cbn [not_].
  rewrite (comprehension_none (fun x => isinstance x cls.And) not_ l Nl),
    (comprehension_none (fun x => isinstance x cls.And) not_ l' Nl').
  rewrite (comprehension_every _ not_ l Nl), (comprehension_every _ not_ l' Nl').
  rewrite H1, H3; repeat split.
Qed.

(** X3.  [not_] returns exactly on the trees built with [And] and [Or]
    over relations with known operators, and what it returns is again such
    a tree; on every other object it raises. *)
Theorem not__defined_on_negatable_trees (o : pyobj) :
  match not_ o with
  | Ok r => negatable o = true /\ negatable r = true
  | Raise _ => negatable o = false
  end.
Proof.
  destruct (negatable o) eqn:N.
  - destruct (not__on_negatable o N) as [r [-> Hr]]; split; [reflexivity|exact Hr].
  - pose proof (not__off_negatable o N) as H.
    destruct (not_ o); [discriminate H|reflexivity].
Qed.

(** ** Conjunction and disjunction *)

Lemma and__closed_form (exprs : list pyobj) :
  and_ exprs
  = Ok match filter (fun x => isinstance x cls.Or) exprs with
       | [] => And [Tuple (implicit_group exprs)]
       | ors => Or (map (fun x => And [Tuple (args x)]) ors
                    ++ [And [Tuple (implicit_group exprs)]])
       end.
Proof.
  unfold and_, implicit_group; cbn [args].
  rewrite product_of_one, !map_map, fold_left_extend, map_app; cbn [map args].
  destruct (filter (fun x => isinstance x cls.Or) exprs) as [|x [|y ors]];
    reflexivity.
Qed.

(** X4.  [and_] never raises and never distributes: without an [Or]
    operand it returns one [And] holding the tuple of the plain operands
    followed by the children of the [And] operands; with k >= 1 [Or]
    operands it returns an [Or] of k+1 branches, one [And] per [Or] operand
    holding the tuple of that operand's branches, then the [And] of the
    remaining operands. *)
Theorem and__one_branch_per_group (exprs : list pyobj) :
  let ors := filter (fun x => isinstance x cls.Or) exprs in
  and_ exprs
  = Ok match ors with
       | [] => And [Tuple (implicit_group exprs)]
       | _ => Or (map (fun x => And [Tuple (args x)]) ors
                  ++ [And [Tuple (implicit_group exprs)]])
       end
  /\ (ors <> [] ->
      forall r, and_ exprs = Ok r -> len (args r) = len ors + 1).
Proof.
  cbn zeta; rewrite and__closed_form.
  destruct (filter _ exprs) as [|x ors]; split; try reflexivity.
  - intros H; contradiction H; reflexivity.
  - intros _ r H; injection H as <-.
    unfold len; cbn [args map app List.length].
    rewrite length_app, length_map; cbn [List.length]; lia.
Qed.

(** X5.  What [and_] returns cannot be negated: [not_] applied to it
    raises [AssertionError], whatever the operands were. *)
Theorem conjunction_cannot_be_negated (exprs : list pyobj) :
  (r <- and_ exprs ;; not_ r) = Raise AssertionError.
Proof.
  rewrite and__closed_form; cbn [bind].
  destruct (filter _ exprs) as [|x ors]; [reflexivity|].
  cbn [not_ map app].
  rewrite comprehension_none.
  - reflexivity.
  - cbn [forallb]; apply forallb_forall; intros b Hb.
    apply in_app_or in Hb as [Hb|[<-|[]]]; [|reflexivity].
    apply in_map_iff in Hb as [y [<- _]]; reflexivity.
Qed.

(** X6.  [or_] never raises; operands none of which is an [Or] are kept
    as they are, two [Or] operands are concatenated, and applying [or_]
    to its own result alone gives that result back. *)
Theorem or__flattens_one_level :
  (forall xs, forallb (fun x => negb (isinstance x cls.Or)) xs = true ->
              or_ xs = Ok (Or xs))
  /\ (forall a b, or_ [Or a; Or b] = Ok (Or (a ++ b)))
  /\ (forall xs, exists r, or_ xs = Ok r /\ or_ [r] = Ok r).
Proof.
  split; [|split].
  - intros xs H; unfold or_; rewrite fold_left_extend.
    rewrite (filter_all _ xs H), (filter_none (fun x => isinstance x cls.Or) xs H).
    cbn [flat_map]; now rewrite app_nil_r.
  - intros a b; reflexivity.
  - intros xs; eexists; split; [reflexivity|].
    unfold or_ at 1; cbn [filter isinstance type cls.issubclass cls.eqb
                           cls.base orb negb fold_left args app].
    reflexivity.
Qed.

(** ** What the translator can and cannot return *)

Lemma cf_components (o : pyobj) :
  comparison_free o = true ->
  forall c, In c (components o) -> comparison_free c = true.
Proof.
  destruct o; cbn [comparison_free components]; intros H c Hc;
    try contradiction; try discriminate H;
    now apply (proj1 (forallb_forall _ _) H).
Qed.

Lemma cf_args (o : pyobj) :
  comparison_free o = true -> forall c, In c (args o) -> comparison_free c = true.
Proof.
  intros H c Hc; apply (cf_components o H).
  destruct o; cbn [args components] in *; try contradiction; exact Hc.
Qed.

Lemma cf_inside (o : pyobj) :
  comparison_free o = true ->
  forall sub, In sub (inside o) ->
    isinstance sub cls.Relation = false /\ isinstance sub cls.Interval = false.
Proof.
  induction o as [o IH] using pyobj_components_ind.
  rewrite Forall_forall in IH.
  intros Hs sub Hin.
  apply inside_components in Hin as [->|[c [Hc Hin]]].
  - destruct o; try discriminate Hs; split; reflexivity.
  - apply (IH c Hc); [now apply (cf_components o)|exact Hin].
Qed.

Lemma not__cf (e : pyobj) :
  forall o, comparison_free e = true -> not_ e = Ok o -> comparison_free o = true.
Proof.
  induction e as [e IH] using pyobj_components_ind.
  rewrite Forall_forall in IH.
  intros o Hs H.
  assert (Hc : forall x, In x (components e) ->
                forall y, not_ x = Ok y -> comparison_free y = true)
    by (intros x Hx y; apply IH; [exact Hx|now apply (cf_components e)]).
  clear IH; destruct e; cbn [not_] in H; try discriminate H;
    try discriminate Hs; cbn [components] in Hc.
  - destruct (for_each not_ args0) as [xs|] eqn:E; cbn [bind] in H;
      [|discriminate H].
    injection H as <-; cbn [comparison_free]; apply forallb_forall.
    exact (comprehension_all _ _ _ _ Hc E).
  - revert H.
    destruct (comprehension (fun x => negb _) not_ args0) as [nl|] eqn:E1;
      cbn [bind]; [|discriminate].
    destruct (comprehension (fun x => isinstance x cls.And) not_ args0)
      as [lg|] eqn:E2; cbn [bind]; [|discriminate].
    intros H.
    pose proof (comprehension_all _ _ _ _ Hc E1) as Hnl.
    pose proof (comprehension_all _ _ _ _ Hc E2) as Hlg.
    destruct (Nat.eqb _ 0); injection H as <-; cbn [comparison_free];
      apply forallb_forall; [exact Hnl|].
    intros c Hin; apply in_map_iff in Hin as [x [<- Hx]].
    cbn [comparison_free app forallb]; rewrite (Hlg x Hx); cbn [andb].
    apply forallb_forall; exact Hnl.
Qed.

Lemma and__cf (exprs : list pyobj) (o : pyobj) :
  (forall x, In x exprs -> comparison_free x = true) ->
  and_ exprs = Ok o -> comparison_free o = true.
Proof.
  intros Hs; rewrite and__closed_form.
  set (ors := filter (fun x => isinstance x cls.Or) exprs).
  assert (Hors : forall y, In y ors -> In y exprs)
    by (intros y Hy; apply filter_In in Hy; tauto).
  assert (Hi : comparison_free (And [Tuple (implicit_group exprs)]) = true).
  { cbn [comparison_free forallb]; rewrite ?andb_true_r.
    apply forallb_forall; intros c Hc; unfold implicit_group in Hc.
    apply in_app_or in Hc as [Hc|Hc].
    - apply filter_In in Hc as [Hc _]; now apply Hs.
    - apply in_flat_map in Hc as [y [Hy Hc]].
      apply filter_In in Hy as [Hy _].
      exact (cf_args y (Hs y Hy) c Hc). }
  assert (Hb : forall b,
             In b (map (fun x => And [Tuple (args x)]) ors
                   ++ [And [Tuple (implicit_group exprs)]]) ->
             comparison_free b = true).
  { intros b Hb; apply in_app_or in Hb as [Hb|[<-|[]]]; [|exact Hi].
    apply in_map_iff in Hb as [y [<- Hy]].
    cbn [comparison_free forallb]; rewrite ?andb_true_r.
    apply forallb_forall; intros c Hc.
    exact (cf_args y (Hs y (Hors y Hy)) c Hc). }
  clearbody ors; destruct ors as [|x ors]; intros H; injection H as <-;
    [exact Hi|].
  cbn [comparison_free]; apply forallb_forall; intros b Hb'.
  apply Hb; exact Hb'.
Qed.

Lemma or__cf (exprs : list pyobj) (o : pyobj) :
  (forall x, In x exprs -> comparison_free x = true) ->
  or_ exprs = Ok o -> comparison_free o = true.
Proof.
  intros Hs; unfold or_; rewrite fold_left_extend.
  intros H; injection H as <-.
  cbn [comparison_free]; apply forallb_forall; intros c Hc.
  apply in_app_or in Hc as [Hc|Hc].
  - apply filter_In in Hc as [Hc _]; now apply Hs.
  - apply in_flat_map in Hc as [y [Hy Hc]].
    apply filter_In in Hy as [Hy _].
    exact (cf_args y (Hs y Hy) c Hc).
Qed.

Lemma unary_cf (sym : string) (content o : pyobj) :
  comparison_free content = true -> unary sym content = Ok o ->
  comparison_free o = true.
Proof.
  intros Hs; unfold unary.
  destruct (_ && _); intros H; injection H as <-; [exact Hs|].
  cbn [comparison_free forallb]; now rewrite Hs.
Qed.

Lemma unary_class (sym : string) (content o : pyobj) :
  unary sym content = Ok o -> isinstance o cls.UnaryOp = true.
Proof.
  unfold unary.
  destruct (isinstance content cls.UnaryOp) eqn:E; cbn [andb].
  - destruct (String.eqb _ _); intros H; injection H as <-;
      [exact E|reflexivity].
  - intros H; injection H as <-; reflexivity.
Qed.

Section MoreFacts.

Variable host_binop : string -> value -> value -> result value.
Variable host_hasattr : hostobj -> string -> bool.
Variable host_set : list value -> list value.

Local Abbreviation recurse := (recurse host_binop host_hasattr host_set).
Local Abbreviation parse := (parse host_binop host_hasattr host_set).

Lemma binop_class (sym : string) (l r o : pyobj) :
  binop host_binop sym l r = Ok o ->
  (exists v, o = Const v) \/ (exists t, o = BinOp sym [Tuple t]).
Proof.
  unfold binop.
  destruct (isinstance l cls.Const && isinstance r cls.Const).
  - destruct (lookup _ sym) as [f|]; cbn [bind]; [|discriminate].
    destruct (f _ _); cbn [bind]; [|discriminate].
    intros H; injection H as <-; left; now eexists.
  - intros H; right;
      repeat match type of H with
             | context [if ?c then _ else _] => destruct c
             end;
      injection H as <-; now eexists.
Qed.

Lemma binop_cf (sym : string) (l r o : pyobj) :
  comparison_free l = true -> comparison_free r = true ->
  binop host_binop sym l r = Ok o -> comparison_free o = true.
Proof.
  intros Hl Hr; unfold binop.
  destruct (isinstance l cls.Const && isinstance r cls.Const).
  - destruct (lookup _ sym) as [f|]; cbn [bind]; [|discriminate].
    destruct (f _ _); cbn [bind]; [|discriminate].
    intros H; injection H as <-; reflexivity.
  - intros H;
      repeat match type of H with
             | context [if ?c then _ else _] => destruct c
             end;
      injection H as <-; cbn [comparison_free forallb];
      rewrite !andb_true_r; try rewrite forallb_app;
      cbn [app forallb]; rewrite ?Hl, ?Hr, ?andb_true_r; cbn [andb];
      rewrite ?(proj2 (forallb_forall _ _) (cf_args l Hl)),
              ?(proj2 (forallb_forall _ _) (cf_args r Hr));
      reflexivity.
Qed.

Lemma recurse_cf (node : ast.expr) :
  forall relations intervals o,
    recurse node relations intervals = Ok o -> comparison_free o = true.
Proof.
  induction node as [node IH] using expr_children_ind.
  rewrite Forall_forall in IH.
  intros relations intervals o H.
  destruct node; simpl in H; cbn [children] in IH;
    try (injection H as <-; reflexivity).
  - destruct (Nat.eqb _ 0); injection H as <-; reflexivity.
  - destruct (for_each _ elts) as [content|]; simpl in H; [|discriminate H].
    destruct (forallb _ content); [|discriminate H].
    destruct (set_ _ _); simpl in H; [|discriminate H].
    injection H as <-; reflexivity.
  - destruct ctx; injection H as <-; reflexivity.
  - destruct relations; simpl in H; [discriminate H|].
    destruct intervals; simpl in H; discriminate H.
  - pose proof (IH node (or_introl eq_refl)) as IHn.
    destruct op.
    + destruct (recurse node false false) eqn:E; simpl in H; [|discriminate H].
      eapply unary_cf; [eapply IHn|]; eassumption.
    + destruct relations; [|discriminate H].
      destruct (recurse node true false) eqn:E; simpl in H; [|discriminate H].
      eapply not__cf; [eapply IHn|]; eassumption.
    + eapply IHn; eassumption.
    + destruct (recurse node false false) eqn:E; simpl in H; [|discriminate H].
      eapply unary_cf; [eapply IHn|]; eassumption.
  - destruct relations; [|discriminate H].
    destruct (for_each _ values) as [xs|] eqn:E; simpl in H; [|discriminate H].
    assert (Hxs : forall x, In x xs -> comparison_free x = true).
    { unfold for_each in E.
      eapply comprehension_all; [|exact E].
      intros x Hx y Hy; cbv beta in Hy; exact (IH x Hx _ _ y Hy). }
    destruct op.
    + eapply and__cf; eassumption.
    + eapply or__cf; eassumption.
  - destruct (binop_symbol op) as [sym|]; [|discriminate H].
    destruct (recurse node1 false false) as [l|] eqn:E1; simpl in H; [|discriminate H].
    destruct (recurse node2 false false) as [r|] eqn:E2; simpl in H; [|discriminate H].
    eapply binop_cf; [eapply (IH node1)|eapply (IH node2)|exact H];
      try eassumption; [left|right; left]; reflexivity.
  - assert (Ha : forall xs, for_each (fun x => recurse x false false) args0 = Ok xs ->
                 forall name, comparison_free (Call name [Tuple xs]) = true).
    { intros xs E name.
      cbn [comparison_free forallb]; rewrite !andb_true_r.
      apply forallb_forall; unfold for_each in E.
      eapply comprehension_all; [|exact E].
      intros x Hx y Hy; cbv beta in Hy; exact (IH x Hx _ _ y Hy). }
    destruct (expr_id node); simpl in H; [|discriminate H].
    destruct (in_recognized_values a); simpl in H.
    + destruct (for_each _ args0) eqn:E; simpl in H; [|discriminate H].
      injection H as <-; now apply Ha.
    + destruct (resolve _ node); simpl in H; [|discriminate H].
      destruct (recognized_get _) as [[name|]|]; simpl in H;
        try discriminate H.
      destruct (for_each _ args0) eqn:E; simpl in H; [|discriminate H].
      injection H as <-; now apply Ha.
Qed.

(** X7.  No translation, of any node in any context, returns an object
    that is or contains a [Relation] or an [Interval]. *)
Theorem translator_builds_no_comparison
    (node : ast.expr) (relations intervals : bool) (o sub : pyobj) :
  recurse node relations intervals = Ok o ->
  In sub (inside o) ->
  isinstance sub cls.Relation = false /\ isinstance sub cls.Interval = false.
Proof.
  intros H; apply cf_inside; eapply recurse_cf; exact H.
Qed.

Lemma and__not_negatable (exprs : list pyobj) (o : pyobj) :
  and_ exprs = Ok o -> negatable o = false.
Proof.
  rewrite and__closed_form; intros H; injection H as <-.
  destruct (filter _ exprs); reflexivity.
Qed.

Lemma or__not_negatable (xs : list pyobj) (o : pyobj) :
  xs <> [] -> (forall x, In x xs -> negatable x = false) ->
  or_ xs = Ok o -> negatable o = false.
Proof.
  intros Hne Hn; unfold or_; rewrite fold_left_extend.
  intros H; injection H as <-; cbn [negatable].
  destruct xs as [|x0 xs]; [contradiction|clear Hne].
  assert (Hex : exists y,
             In y (filter (fun x => negb (isinstance x cls.Or)) (x0 :: xs)
                   ++ flat_map args
                        (filter (fun x => isinstance x cls.Or) (x0 :: xs)))
             /\ negatable y = false).
  { pose proof (Hn x0 (or_introl eq_refl)) as N0.
    destruct (isinstance x0 cls.Or) eqn:E.
    - destruct x0; try discriminate E.
      cbn [negatable] in N0.
      apply forallb_false_witness in N0 as [y [Hy Ny]].
      exists y; split; [|exact Ny].
      apply in_or_app; right; apply in_flat_map.
      exists (Or args0); split; [|exact Hy].
      apply filter_In; split; [left; reflexivity|reflexivity].
    - exists x0; split; [|exact N0].
      apply in_or_app; left; apply filter_In; split;
        [left; reflexivity|now rewrite E]. }
  destruct Hex as [y [Hy Ny]].
  destruct (forallb negatable _) eqn:F; [|reflexivity].
  rewrite forallb_forall in F; rewrite (F y Hy) in Ny; discriminate Ny.
Qed.

Lemma recurse_not_negatable (node : ast.expr) :
  boolops_well_formed node = true ->
  forall relations intervals o,
    recurse node relations intervals = Ok o -> negatable o = false.
Proof.
  induction node as [node IH] using expr_children_ind.
  rewrite Forall_forall in IH.
  intros W relations intervals o H.
  destruct node; simpl in H; cbn [children] in IH;
    cbn [boolops_well_formed] in W;
    try (injection H as <-; reflexivity).
  - destruct (Nat.eqb _ 0); injection H as <-; reflexivity.
  - destruct (for_each _ elts) as [content|]; simpl in H; [|discriminate H].
    destruct (forallb _ content); [|discriminate H].
    destruct (set_ _ _); simpl in H; [|discriminate H].
    injection H as <-; reflexivity.
  - destruct ctx; injection H as <-; reflexivity.
  - destruct relations; simpl in H; [discriminate H|].
    destruct intervals; simpl in H; discriminate H.
  - pose proof (IH node (or_introl eq_refl) W) as IHn.
    assert (Hu : forall sym c, unary sym c = Ok o -> negatable o = false).
    { intros sym c Hc; apply unary_class in Hc.
      destruct o; try discriminate Hc; reflexivity. }
    destruct op.
    + destruct (recurse node false false); simpl in H; [|discriminate H].
      eapply Hu; exact H.
    + destruct relations; [|discriminate H].
      destruct (recurse node true false) as [x|] eqn:E; simpl in H;
        [|discriminate H].
      pose proof (not__off_negatable x (IHn _ _ _ E)) as Hr.
      rewrite H in Hr; discriminate Hr.
    + eapply IHn; exact H.
    + destruct (recurse node false false); simpl in H; [|discriminate H].
      eapply Hu; exact H.
  - destruct relations; [|discriminate H].
    apply andb_prop in W as [Wn Wv]; rewrite forallb_forall in Wv.
    destruct (for_each _ values) as [xs|] eqn:E; simpl in H; [|discriminate H].
    destruct op; [eapply and__not_negatable; exact H|].
    eapply or__not_negatable; [| |exact H].
    + destruct values as [|v values]; [discriminate Wn|].
      unfold for_each in E; cbn [comprehension] in E.
      destruct (recurse v true false); cbn [bind] in E; [|discriminate E].
      destruct (comprehension _ _ values); cbn [bind] in E; [|discriminate E].
      injection E as <-; discriminate.
    + unfold for_each in E.
      eapply comprehension_all; [|exact E].
      intros x Hx y Hy; cbv beta in Hy; exact (IH x Hx (Wv x Hx) _ _ y Hy).
  - destruct (binop_symbol op) as [sym|]; [|discriminate H].
    destruct (recurse node1 false false) as [l|]; simpl in H; [|discriminate H].
    destruct (recurse node2 false false) as [r|]; simpl in H; [|discriminate H].
    apply binop_class in H as [[v ->]|[t ->]]; reflexivity.
  - destruct (expr_id node); simpl in H; [|discriminate H].
    destruct (in_recognized_values a); simpl in H.
    + destruct (for_each _ args0); simpl in H; [|discriminate H].
      injection H as <-; reflexivity.
    + destruct (resolve _ node); simpl in H; [|discriminate H].
      destruct (recognized_get _) as [[name|]|]; simpl in H;
        try discriminate H.
      destruct (for_each _ args0); simpl in H; [|discriminate H].
      injection H as <-; reflexivity.
Qed.

(** X8.  A logical [not] is never translated: whatever its operand (the
    boolean operations in it having their two operands or more) and
    whatever the context, the translation raises. *)
Theorem logical_not_always_raises
    (operand : ast.expr) (relations intervals : bool) :
  boolops_well_formed operand = true ->
  is_Raise (recurse (ast.UnaryOp ast.Not operand) relations intervals) = true.
Proof.
  intros W; simpl.
  destruct relations; [|reflexivity].
  destruct (recurse operand true false) as [x|] eqn:E; simpl; [|reflexivity].
  apply not__off_negatable.
  eapply recurse_not_negatable; eassumption.
Qed.

(** X9.  A comparison, a boolean operation or a logical [not] is refused
    wherever relations are not allowed, with an [ExpressionError] that
    carries the refused node; as the left operand of a binary operator, the
    operand of a unary [-], [+] or [~], the first element of a set or the
    first argument of [sqrt], it makes the whole translation raise that
    same error, in every context. *)
Theorem logical_syntax_refused_below_top (inner : ast.expr) :
  logical_syntax inner = true ->
  exists msg,
    recurse inner false false = Raise (ExpressionError msg inner)
    /\ (forall op rhs relations intervals,
           binop_symbol op <> None ->
           recurse (ast.BinOp inner op rhs) relations intervals
           = Raise (ExpressionError msg inner))
    /\ (forall op relations intervals,
           op <> ast.Not ->
           recurse (ast.UnaryOp op inner) relations intervals
           = Raise (ExpressionError msg inner))
    /\ (forall rest relations intervals,
           recurse (ast.Set_ (inner :: rest)) relations intervals
           = Raise (ExpressionError msg inner))
    /\ (forall ctx rest relations intervals,
           recurse (ast.Call (ast.Name "sqrt" ctx) (inner :: rest))
             relations intervals
           = Raise (ExpressionError msg inner)).
Proof.
  intros L.
  assert (Hi : exists msg,
             recurse inner false false = Raise (ExpressionError msg inner)).
  { destruct inner; try discriminate L; try (eexists; reflexivity).
    destruct op; try discriminate L; eexists; reflexivity. }
  destruct Hi as [msg Hi]; exists msg; split; [exact Hi|].
  split; [|split; [|split]].
  - intros op rhs relations intervals Hop.
    rewrite (recurse_BinOp host_binop host_hasattr host_set).
    destruct (binop_symbol op); [|contradiction Hop; reflexivity].
    now rewrite Hi.
  - intros op relations intervals Hop.
    destruct op; try (contradiction Hop; reflexivity);
      simpl; now rewrite Hi.
  - intros rest relations intervals.
    simpl; now rewrite Hi.
  - intros ctx rest relations intervals.
    simpl; now rewrite Hi.
Qed.

Lemma for_each_literals (ns : list number) :
  for_each (fun x => recurse x false false) (map ast.Num ns)
  = Ok (map (fun n => Const (Number n)) ns).
Proof.
  unfold for_each; induction ns as [|n ns IH]; [reflexivity|].
  cbn [map comprehension]; rewrite IH; reflexivity.
Qed.

Lemma for_each_app_raise (A B : Type) (f : A -> result B) (l1 l2 : list A)
    (ys : list B) (e : exn) :
  for_each f l1 = Ok ys -> for_each f l2 = Raise e ->
  for_each f (l1 ++ l2) = Raise e.
Proof.
  unfold for_each; revert ys; induction l1 as [|x l1 IH]; intros ys H1 H2.
  - exact H2.
  - cbn [app comprehension] in *.
    destruct (f x); cbn [bind] in *; [|discriminate H1].
    destruct (comprehension _ f l1) eqn:E; cbn [bind] in H1; [|discriminate H1].
    now rewrite (IH _ eq_refl H2).
Qed.

Lemma for_each_app (A B : Type) (f : A -> result B) (l1 l2 : list A)
    (ys1 ys2 : list B) :
  for_each f l1 = Ok ys1 -> for_each f l2 = Ok ys2 ->
  for_each f (l1 ++ l2) = Ok (ys1 ++ ys2).
Proof.
  unfold for_each; revert ys1; induction l1 as [|x l1 IH]; intros ys1 H1 H2.
  - injection H1 as <-; exact H2.
  - cbn [app comprehension] in *.
    destruct (f x); cbn [bind] in *; [|discriminate H1].
    destruct (comprehension _ f l1) eqn:E; cbn [bind] in H1; [|discriminate H1].
    injection H1 as <-.
    now rewrite (IH _ eq_refl H2).
Qed.

Lemma literals_are_constants (ns : list number) (tail : list pyobj) :
  forallb (fun x => isinstance x cls.Const)
    (map (fun n => Const (Number n)) ns ++ tail)
  = forallb (fun x => isinstance x cls.Const) tail.
Proof. induction ns as [|n ns IH]; [reflexivity|exact IH]. Qed.

Lemma numbers_are_hashable (ns : list number) :
  set_ host_set (map const_value (map (fun n => Const (Number n)) ns))
  = Ok (SetOf (host_set (map Number ns))).
Proof.
  unfold set_; rewrite map_map; cbn [const_value].
  replace (existsb _ (map (fun x => Number x) ns)) with false;
    [reflexivity|].
  induction ns as [|n ns IH]; [reflexivity|exact IH].
Qed.

(** X10.  A set display of number literals is translated to the constant
    holding the set the host builds from those numbers; if one element is a
    variable, the others being number literals, the translation raises the
    [ExpressionError] for variable contents on the set node; a set display
    holding an empty dict display raises [TypeError], a set being
    unhashable. *)
Theorem set_displays (relations intervals : bool) :
  (forall ns,
      recurse (ast.Set_ (map ast.Num ns)) relations intervals
      = Ok (Const (SetOf (host_set (map Number ns)))))
  /\ (forall ns id ms,
         let node := ast.Set_ (map ast.Num ns ++ var id :: map ast.Num ms) in
         recurse node relations intervals
         = Raise (ExpressionError
             "sets in expressions may not contain variable contents" node))
  /\ recurse (ast.Set_ [ast.Dict [] []]) relations intervals
     = Raise (TypeError "unhashable type: 'set'").
Proof.
  split; [|split]; [| |reflexivity].
  - intros ns; simpl.
    rewrite for_each_literals; cbn [bind].
    pose proof (literals_are_constants ns []) as C.
    rewrite app_nil_r in C; rewrite C; cbn [forallb].
    now rewrite numbers_are_hashable.
  - intros ns id ms; cbn zeta; simpl.
    rewrite (for_each_app _ _ _ (for_each_literals ns)
               (ys2 := Name id :: map (fun n => Const (Number n)) ms)).
    + cbn [bind]; now rewrite literals_are_constants.
    + change (var id :: map ast.Num ms) with ([var id] ++ map ast.Num ms).
      now apply (for_each_app _ [var id] _ (ys1 := [Name id]));
        [|apply for_each_literals].
Qed.

Lemma sqrt_is_the_registered_name (id : string) :
  in_recognized_values id = String.eqb "sqrt" id.
Proof.
  unfold in_recognized_values, recognized; cbn [existsb snd].
  destruct (String.eqb "sqrt" id); reflexivity.
Qed.

Lemma unbound_name (id : string) :
  existsb (String.eqb id) imports_and_classes = false ->
  String.prefix "__" id = false ->
  existsb (String.eqb id) globals = false.
Proof.
  intros H P.
  change globals
    with (imports_and_classes
          ++ ["__name__"; "__doc__"; "__file__"; "__package__"; "__builtins__"]).
  rewrite existsb_app, H; cbn [orb existsb].
  repeat match goal with
         | |- context [String.eqb id ?s] =>
             let E := fresh "E" in
             destruct (String.eqb id s) eqn:E;
             [apply String.eqb_eq in E; subst id; discriminate P|];
             cbn [orb]
         end.
  reflexivity.
Qed.

(** X11.  Calls.  A call of the bare name [sqrt] is translated to a [Call]
    holding the tuple of the translated arguments.  A callee that is not a
    bare name (an attribute reference such as [math.sqrt]) raises
    [AttributeError]; another bare name raises [ExpressionError] for an
    unhandled function when it is one of the module's imports or classes,
    and [KeyError] when it is not and does not start with two
    underscores. *)
Theorem call_translation (func : ast.expr) (a : list ast.expr)
    (relations intervals : bool) :
  let node := ast.Call func a in
  match func with
  | ast.Name id _ =>
      if String.eqb "sqrt" id
      then recurse node relations intervals
           = (xs <- for_each (fun x => recurse x false false) a ;;
              Ok (Call "sqrt" [Tuple xs]))
      else if existsb (String.eqb id) imports_and_classes
      then recurse node relations intervals
           = Raise (ExpressionError "unhandled function in expression" node)
      else if String.prefix "__" id
      then True
      else recurse node relations intervals = Raise (KeyError id)
  | _ => recurse node relations intervals = Raise (AttributeError "id")
  end.
Proof.
  cbn zeta; destruct func; try reflexivity.
  change (recurse (ast.Call (ast.Name id ctx) a) relations intervals)
    with (f <- (if in_recognized_values id then Ok (Some id)
                else o <- resolve host_hasattr (ast.Name id ctx) ;;
                     recognized_get o) ;;
          match f with
          | None => Raise (ExpressionError "unhandled function in expression"
                             (ast.Call (ast.Name id ctx) a))
          | Some name =>
              xs <- for_each (fun x => recurse x false false) a ;;
              Ok (Call name [Tuple xs])
          end).
  rewrite sqrt_is_the_registered_name.
  destruct (String.eqb "sqrt" id) eqn:E.
  - apply String.eqb_eq in E; subst id; reflexivity.
  - cbn [resolve].
    destruct (existsb (String.eqb id) imports_and_classes) eqn:B.
    + replace (existsb (String.eqb id) globals) with true.
      * cbn [bind]; unfold recognized_get; cbn [hostobj_eqb].
        destruct (String.eqb id "__builtins__") eqn:D; [|reflexivity].
        apply String.eqb_eq in D; subst id; discriminate B.
      * symmetry; change globals
          with (imports_and_classes
                ++ ["__name__"; "__doc__"; "__file__"; "__package__"; "__builtins__"]).
        now rewrite existsb_app, B.
    + destruct (String.prefix "__" id) eqn:P; [exact I|].
      now rewrite (unbound_name id B P).
Qed.

(** X12.  When [parse] returns, its input was reducible to one
    expression, the [Dim] it returns has an empty list of names, and its
    expression is the translation of that one expression with relations
    and intervals allowed. *)
Theorem parse_result (e : expression) (d : Dim) :
  parse e = Ok d ->
  reducible e = true
  /\ names d = []
  /\ exists v,
       recurse v true true = Ok (expr d)
       /\ match e with
          | Callable (FunctionDef body) => body = [ast.Return v]
          | Callable (Lambda b) => body_value b = Ok v
          | Text body => body = [ast.Expr v]
          end.
Proof.
  assert (D : forall v, dim (recurse v true true) = Ok d ->
              names d = [] /\ recurse v true true = Ok (expr d)).
  { intros v; unfold dim; destruct (recurse v true true); cbn [bind];
      [|discriminate]; intros H; injection H as <-; split; reflexivity. }
  destruct e as [[body|b]|body].
  - destruct body as [|[] []]; intros H; try discriminate H.
    change (dim (recurse value0 true true) = Ok d) in H.
    destruct (D _ H) as [Hn Hv]; repeat split; [exact Hn|].
    exists value0; split; [exact Hv|reflexivity].
  - intros H.
    change (v <- body_value b ;; dim (recurse v true true) = Ok d) in H.
    destruct (body_value b) as [v|] eqn:B; cbn [bind] in H; [|discriminate H].
    destruct (D _ H) as [Hn Hv]; repeat split; [exact Hn|].
    exists v; split; [exact Hv|reflexivity].
  - destruct body as [|[] []]; intros H; try discriminate H.
    change (dim (recurse value0 true true) = Ok d) in H.
    destruct (D _ H) as [Hn Hv]; repeat split; [exact Hn|].
    exists value0; split; [exact Hv|reflexivity].
Qed.

End MoreFacts.

(** ** Rendering *)

Lemma string_of_list_ascii_prefix (s : string) (l : list ascii) :
  string_of_list_ascii (list_ascii_of_string s ++ l)
  = (s ++ string_of_list_ascii l)%string.
Proof.
  induction s as [|c s IH]; [reflexivity|].
  cbn [list_ascii_of_string app string_of_list_ascii String.append].
  now rewrite IH.
Qed.

Lemma format_name_and_arguments (s : pyobj -> result string) (g : string)
    (a b : string) :
  format s g "{0}({1})" [ArgStr a; ArgStr b] = Ok (a ++ "(" ++ b ++ ")")%string.
Proof.
  transitivity (@Ok string (string_of_list_ascii
    (list_ascii_of_string a ++ "("%char :: list_ascii_of_string b ++ [")"%char])));
    [reflexivity|].
  rewrite string_of_list_ascii_prefix.
  cbn [string_of_list_ascii]; now rewrite string_of_list_ascii_prefix.
Qed.

Lemma format_three_fields (s : pyobj -> result string) (g : string)
    (a b c : string) :
  format s g "{0} {1} {2}" [ArgStr a; ArgStr b; ArgStr c]
  = Ok (a ++ " " ++ b ++ " " ++ c)%string
  /\ format s g "{0} <= {1} < {2}" [ArgStr a; ArgStr b; ArgStr c]
     = Ok (a ++ " <= " ++ b ++ " < " ++ c)%string
  /\ format s g "{0} < {1} <= {2}" [ArgStr a; ArgStr b; ArgStr c]
     = Ok (a ++ " < " ++ b ++ " <= " ++ c)%string.
Proof.
  assert (E : forall m r : string,
             string_of_list_ascii
               (list_ascii_of_string a ++ list_ascii_of_string m
                ++ list_ascii_of_string b ++ list_ascii_of_string r
                ++ list_ascii_of_string c ++ [])
             = (a ++ m ++ b ++ r ++ c)%string).
  { intros m r; rewrite app_nil_r, !string_of_list_ascii_prefix.
    now rewrite string_of_list_ascii_of_string. }
  repeat split.
  - rewrite <- (E " " " ")%string; reflexivity.
  - rewrite <- (E " <= " " < ")%string; reflexivity.
  - rewrite <- (E " < " " <= ")%string; reflexivity.
Qed.

Section ShowFacts.

Variable str_value repr_value : value -> string.
Variable repr_string : string -> string.
Variable generator_repr : string.
Variable repr_names : list string -> string.
Variable host_binop : string -> value -> value -> result value.
Variable host_hasattr : hostobj -> string -> bool.
Variable host_set : list value -> list value.

Local Abbreviation shw := (show str_value repr_value repr_string generator_repr).
Local Abbreviation rpr := (repr str_value repr_value repr_string generator_repr).
Local Abbreviation st := (str str_value repr_value repr_string generator_repr).

Lemma repr_shape (o : pyobj) :
  exists s, rpr o = Ok s
            /\ (isinstance o cls.Expr = true ->
                exists body, s = (class_name o ++ "(" ++ body ++ ")")%string).
Proof.
  unfold repr.
  induction o as [o IH] using pyobj_components_ind.
  rewrite Forall_forall in IH.
  assert (L : forall (Q : pyobj -> string -> Prop) l,
              (forall c, In c l -> exists s, shw true c = Ok s /\ Q c s) ->
              exists rs, for_each (shw true) l = Ok rs).
  { intros Q l Hl; apply comprehension_succeeds.
    intros x Hx _; destruct (Hl x Hx) as [s [-> _]]; reflexivity. }
  assert (F : forall a b, exists s,
             format (fun _ => Raise (TypeError "not an argument")) generator_repr
               "{0}({1})" [ArgStr a; ArgStr b] = Ok s
             /\ (isinstance o cls.Expr = true ->
                 a = class_name o ->
                 exists body, s = (class_name o ++ "(" ++ body ++ ")")%string)).
  { intros a b; rewrite format_name_and_arguments; eexists; split; [reflexivity|].
    intros _ ->; now eexists. }
  destruct o; cbn [components] in IH;
    try (destruct (L _ _ IH) as [rs Hrs]);
    cbn [show]; rewrite ?Hrs; cbn [bind].
  - eexists; split; [reflexivity|discriminate].
  - eexists; split; [reflexivity|discriminate].
  - destruct (F (class_name (Const value0)) (join ", " [repr_value value0]))
      as [s [-> Hs]]; eexists; split; [reflexivity|auto].
  - destruct (F (class_name (Name value0)) (join ", " [repr_string value0]))
      as [s [-> Hs]]; eexists; split; [reflexivity|auto].
  - destruct (F (class_name (Call fcn0 args0)) (join ", " ([repr_string fcn0] ++ rs)))
      as [s [-> Hs]]; eexists; split; [reflexivity|auto].
  - destruct (F (class_name (UnaryOp fcn0 args0)) (join ", " ([repr_string fcn0] ++ rs)))
      as [s [-> Hs]]; eexists; split; [reflexivity|auto].
  - destruct (F (class_name (BinOp fcn0 args0)) (join ", " ([repr_string fcn0] ++ rs)))
      as [s [-> Hs]]; eexists; split; [reflexivity|auto].
  - destruct (IH o1 (or_introl eq_refl)) as [r1 [-> _]].
    destruct (IH o2 (or_intror (or_introl eq_refl))) as [r2 [-> _]].
    cbn [bind].
    destruct (F (class_name (Relation cmp o1 o2)) (join ", " [repr_string cmp; r1; r2]))
      as [s [-> Hs]]; eexists; split; [reflexivity|auto].
  - destruct (IH o1 (or_introl eq_refl)) as [r1 [-> _]].
    destruct (IH o2 (or_intror (or_introl eq_refl))) as [r2 [-> _]].
    destruct (IH o3 (or_intror (or_intror (or_introl eq_refl)))) as [r3 [-> _]].
    cbn [bind].
    destruct (F (class_name (Interval o1 o2 o3 lowclosed))
                (join ", " (if lowclosed then [r2; r3; r1]
                            else [r2; r3; r1; "lowclosed=False"])))
      as [s [-> Hs]]; eexists; split; [reflexivity|auto].
  - destruct (F (class_name (And args0)) (join ", " rs))
      as [s [-> Hs]]; eexists; split; [reflexivity|auto].
  - destruct (F (class_name (Or args0)) (join ", " rs))
      as [s [-> Hs]]; eexists; split; [reflexivity|auto].
Qed.

(** X13.  [repr] never raises, on any object; for an expression node the
    text is the name of the node's class followed by a parenthesised
    list; the [repr] of a [Dim] never raises either and reads
    [Dim(names, expression)]. *)
Theorem repr_never_raises (o : pyobj) (d : Dim) :
  (exists s, rpr o = Ok s
             /\ (isinstance o cls.Expr = true ->
                 exists body, s = (class_name o ++ "(" ++ body ++ ")")%string))
  /\ (exists e, rpr (expr d) = Ok e
                /\ Dim__repr__ str_value repr_value repr_string generator_repr
                     repr_names d
                   = Ok ("Dim(" ++ repr_names (names d) ++ ", " ++ e ++ ")")%string).
Proof.
  split; [apply repr_shape|].
  destruct (repr_shape (expr d)) as [e [He _]]; exists e; split; [exact He|].
  unfold Dim__repr__; rewrite He; cbn [bind].
  transitivity (@Ok string (string_of_list_ascii
    (list_ascii_of_string "Dim(" ++ list_ascii_of_string (repr_names (names d))
     ++ list_ascii_of_string ", " ++ list_ascii_of_string e ++ [")"%char])));
    [reflexivity|].
  now rewrite !string_of_list_ascii_prefix.
Qed.

(** X14.  What the translator returns for a unary minus or a bitwise not
    has no text: [str] of it raises [AttributeError] for the attribute
    [arg], which neither [UnaryOp] nor [Call] sets. *)
Theorem unary_result_has_no_str
    (op : ast.unaryop) (operand : ast.expr) (relations intervals : bool)
    (o : pyobj) :
  op = ast.USub \/ op = ast.Invert ->
  recurse host_binop host_hasattr host_set (ast.UnaryOp op operand) relations intervals
  = Ok o ->
  st o = Raise (AttributeError "arg").
Proof.
  intros Hop H.
  assert (U : isinstance o cls.UnaryOp = true).
  { destruct Hop as [-> | ->]; simpl in H;
      (destruct (recurse host_binop host_hasattr host_set operand false false);
       simpl in H; [|discriminate H]);
      eapply unary_class; exact H. }
  destruct o; try discriminate U; reflexivity.
Qed.

(** X15.  The text of a [BinOp] the translator returns does not render the
    node's own operator: the node holds one tuple, and [str] of the node is
    the [repr] of that tuple. *)
Theorem binop_result_str_is_tuple_repr
    (node : ast.expr) (relations intervals : bool) (sym : string)
    (a : list pyobj) :
  recurse host_binop host_hasattr host_set node relations intervals = Ok (BinOp sym a) ->
  exists t, a = [Tuple t] /\ st (BinOp sym a) = rpr (Tuple t).
Proof.
  intros H; apply recurse_sound, sound_layout in H.
  destruct (BinOp_args (BinOp sym a) eq_refl H) as [t Ht].
  cbn [args] in Ht; subst a; exists t; split; [reflexivity|].
  unfold str, repr; cbn [show for_each comprehension].
  change (isinstance (Tuple t) cls.BinOp) with false; cbn [show].
  destruct (for_each _ t); reflexivity.
Qed.

(** X16.  The text of a comparison is made of the texts of its parts: a
    relation reads [arg cmp const] and an interval reads
    [low <= arg < high] when it is closed below, [low < arg <= high]
    otherwise. *)
Theorem comparison_str (cmp : string) (arg const low high : pyobj)
    (sa sc sl sh : string) :
  st arg = Ok sa -> st const = Ok sc -> st low = Ok sl -> st high = Ok sh ->
  st (Relation cmp arg const) = Ok (sa ++ " " ++ cmp ++ " " ++ sc)%string
  /\ st (Interval arg low high true)
     = Ok (sl ++ " <= " ++ sa ++ " < " ++ sh)%string
  /\ st (Interval arg low high false)
     = Ok (sl ++ " < " ++ sa ++ " <= " ++ sh)%string.
Proof.
  unfold str; intros Ha Hc Hl Hh; cbn [show].
  rewrite Ha, Hc, Hl, Hh; cbn [bind].
  split; [|split].
  - exact (proj1 (format_three_fields _ _ sa cmp sc)).
  - exact (proj1 (proj2 (format_three_fields _ _ sl sa sh))).
  - exact (proj2 (proj2 (format_three_fields _ _ sl sa sh))).
Qed.

End ShowFacts.

(** ** Chains of facets *)

Section ChainFacts.

Variables axis key : Type.

Local Abbreviation chain_of := (@vega._chain axis key).
Local Abbreviation facet := (vega.facet axis).

Lemma existsb_false_filter (A : Type) (p : A -> bool) (l : list A) :
  existsb p l = false -> filter p l = [].
Proof.
  induction l as [|x l IH]; cbn [existsb filter]; [reflexivity|].
  intros H; apply orb_false_elim in H as [Hx Hl]; rewrite Hx; auto.
Qed.

Lemma count_extended (p : facet -> bool) (chain : list facet) (item : facet) :
  vega.count p (chain ++ [item])
  = vega.count p chain + (if p item then 1 else 0).
Proof.
  unfold vega.count, len; rewrite filter_app, length_app; cbn [filter].
  destruct (p item); reflexivity.
Qed.

(** What a splitting method does when it returns: the facet kind was not
    in the chain, the source is kept, and one facet of that kind is added
    at the end. *)
Lemma split_step
    (is_kind : facet -> bool) (make : option axis -> facet) (msg : string)
    (c c' : vega.FacetChain axis key) (a : vega.given axis key) :
  (if existsb is_kind (chain_of c)
   then vega.Failed (vega.TypeError msg)
   else vega.then_ (vega._asaxis c a) (fun x =>
        vega.Done (vega.FacetChain__init__ (inr c) (make x)))) = vega.Done c' ->
  existsb is_kind (chain_of c) = false
  /\ exists x, c' = {| vega._source := vega._source c;
                       vega._chain := chain_of c ++ [make x] |}.
Proof.
  destruct (existsb is_kind (chain_of c)); [discriminate|].
  destruct (vega._asaxis c a) as [x|]; cbn [vega.then_]; [|discriminate].
  intros H; injection H as <-; split; [reflexivity|now exists x].
Qed.

(** X17.  A chain built from a first facet by [overlay], [stack],
    [beside] and [below] holds at most one overlay, one stack, one beside
    and one below facet. *)
Theorem built_chain_splits_once (c : vega.FacetChain axis key) :
  vega.built c ->
  vega.count (@vega.is_OverlayFacet axis) (chain_of c) <= 1
  /\ vega.count (@vega.is_StackFacet axis) (chain_of c) <= 1
  /\ vega.count (@vega.is_BesideFacet axis) (chain_of c) <= 1
  /\ vega.count (@vega.is_BelowFacet axis) (chain_of c) <= 1.
Proof.
  induction 1 as [h item|c c' a B IH H|c c' a B IH H|c c' a B IH H|c c' a B IH H].
  - cbn [vega.FacetChain__init__ vega._chain]; unfold vega.count, len.
    destruct item; cbn; repeat split; lia.
  - apply split_step in H as [E [x ->]]; cbn [vega._chain].
    rewrite !count_extended; cbn [vega.is_OverlayFacet vega.is_StackFacet
      vega.is_BesideFacet vega.is_BelowFacet].
    unfold vega.count at 1; rewrite (existsb_false_filter _ _ E); cbn [len List.length].
    destruct IH as [_ [? [? ?]]]; repeat split; lia.
  - apply split_step in H as [E [x ->]]; cbn [vega._chain].
    rewrite !count_extended; cbn [vega.is_OverlayFacet vega.is_StackFacet
      vega.is_BesideFacet vega.is_BelowFacet].
    unfold vega.count at 2; rewrite (existsb_false_filter _ _ E); cbn [len List.length].
    destruct IH as [? [_ [? ?]]]; repeat split; lia.
  - apply split_step in H as [E [x ->]]; cbn [vega._chain].
    rewrite !count_extended; cbn [vega.is_OverlayFacet vega.is_StackFacet
      vega.is_BesideFacet vega.is_BelowFacet].
    unfold vega.count at 3; rewrite (existsb_false_filter _ _ E); cbn [len List.length].
    destruct IH as [? [? [_ ?]]]; repeat split; lia.
  - apply split_step in H as [E [x ->]]; cbn [vega._chain].
    rewrite !count_extended; cbn [vega.is_OverlayFacet vega.is_StackFacet
      vega.is_BesideFacet vega.is_BelowFacet].
    unfold vega.count at 4; rewrite (existsb_false_filter _ _ E); cbn [len List.length].
    destruct IH as [? [? [? _]]]; repeat split; lia.
Qed.

Lemma existsb_extended (p : facet -> bool) (chain : list facet) (item : facet) :
  existsb p chain = false -> p item = false -> existsb p (chain ++ [item]) = false.
Proof.
  intros H1 H2; rewrite existsb_app, H1; cbn [existsb]; now rewrite H2.
Qed.

(** X18.  A step, line or marker plot is refused on a chain that holds a
    stack facet (only [area] accepts it), and a line or marker plot with
    error bars is refused on a chain split beside or below.  When [line]
    returns, the plot keeps the source, its chain is the chain followed by
    the one line facet, it holds no stack facet and, with error bars, no
    beside and no below facet. *)
Theorem plots_that_are_refused
    (c : vega.FacetChain axis key) (a profile : vega.given axis key)
    (error : bool) :
  (existsb (@vega.is_StackFacet axis) (chain_of c) = true ->
   vega.step c a profile = vega.Failed (vega.TypeError "only area can be stacked")
   /\ vega.line c a profile error
      = vega.Failed (vega.TypeError "only area can be stacked")
   /\ vega.marker c a profile error
      = vega.Failed (vega.TypeError "only area can be stacked"))
  /\ (existsb (@vega.is_StackFacet axis) (chain_of c) = false ->
      existsb (fun x => vega.is_BesideFacet x || vega.is_BelowFacet x) (chain_of c)
      = true ->
      vega.line c a profile true = vega.Failed vega.error_bars_refused
      /\ vega.marker c a profile true = vega.Failed vega.error_bars_refused)
  /\ (forall p, vega.line c a profile error = vega.Done p ->
      vega.plot_source p = vega._source c
      /\ (exists x q, vega.plot_chain p = chain_of c ++ [vega.LineFacet x q error])
      /\ existsb (@vega.is_StackFacet axis) (vega.plot_chain p) = false
      /\ (error = true ->
          existsb (fun x => vega.is_BesideFacet x || vega.is_BelowFacet x)
            (vega.plot_chain p) = false)).
Proof.
  split; [|split].
  - intros S; unfold vega.step, vega.line, vega.marker; rewrite S; repeat split.
  - intros S B; unfold vega.line, vega.marker; rewrite S, B; split; reflexivity.
  - intros p; unfold vega.line.
    destruct (existsb (@vega.is_StackFacet axis) (chain_of c)) eqn:S; [discriminate|].
    destruct (error && _) eqn:B; [discriminate|].
    destruct (vega.axis_and_profile c a profile) as [[x q]|]; cbn [vega.then_];
      [|discriminate].
    intros H; injection H as <-.
    cbn [vega.Plotable__init__ vega.plot_source vega.plot_chain fst snd].
    split; [reflexivity|split; [now exists x, q|split]].
    + now apply existsb_extended.
    + intros ->; cbn [andb] in B; now apply existsb_extended.
Qed.

End ChainFacts.

(** ** The ranking expression *)

Lemma format_conditional (s : pyobj -> result string) (g : string)
    (var v rank otherwise : string) :
  format s g makeorder_template
    [ArgStr var; ArgStr v; ArgStr rank; ArgStr otherwise]
  = Ok (conditional var v rank otherwise).
Proof.
  transitivity (@Ok string (string_of_list_ascii
    (list_ascii_of_string "if(datum." ++ list_ascii_of_string var
     ++ list_ascii_of_string " === " ++ list_ascii_of_string v
     ++ list_ascii_of_string ", " ++ list_ascii_of_string rank
     ++ list_ascii_of_string ", " ++ list_ascii_of_string otherwise
     ++ [")"%char])));
    [reflexivity|].
  unfold conditional; now rewrite !string_of_list_ascii_prefix.
Qed.

(** X19.  [makeorder] raises [AssertionError] on an empty list of values
    and on no other; for the values v1 ... vn it returns n nested
    conditionals, the k-th testing the variable against the [repr] of vk
    and giving the rank i + k - 1, the innermost alternative being
    i + n. *)
Theorem makeorder_ranks_in_order
    (repr_string : string -> string) (i : nat) (var : string)
    (values : list string) :
  makeorder repr_string i var values
  = match values with
    | [] => Raise AssertionError
    | _ => Ok (ranking repr_string i var values)
    end.
Proof.
  revert i; induction values as [|v rest IH]; intros i; [reflexivity|].
  destruct rest as [|w rest].
  - cbn [makeorder ranking]; apply format_conditional.
  - change (makeorder repr_string i var (v :: w :: rest))
      with (inner <- makeorder repr_string (i + 1) var (w :: rest) ;;
            format (fun _ => Raise (TypeError "not an argument")) EmptyString
              makeorder_template
              [ArgStr var; ArgStr (repr_string v); ArgStr (decimal i);
               ArgStr inner]).
    rewrite IH; cbn [bind]; rewrite format_conditional; reflexivity.
Qed.

(** ** Further concrete instances *)

Lemma de_morgan_on_relations_witness :
  exists l',
    for_each not_ [rel_a; rel_b] = Ok l' /\ len l' = len [rel_a; rel_b]
    /\ not_ (And [rel_a; rel_b]) = Ok (Or l')
    /\ not_ (Or [rel_a; rel_b]) = Ok (And l')
    /\ not_ (Or l') = Ok (And [rel_a; rel_b])
    /\ not_ (And l') = Ok (Or [rel_a; rel_b]).
Proof. exact (de_morgan_on_relations [rel_a; rel_b] eq_refl). Defined.

Lemma and__one_branch_per_group_witness :
  len (args (Or [And [Tuple [rel_a; rel_b]]; And [Tuple [rel_c]]])) = 1 + 1.
Proof.
  refine (proj2 (and__one_branch_per_group [Or [rel_a; rel_b]; rel_c]) _
            (Or [And [Tuple [rel_a; rel_b]]; And [Tuple [rel_c]]]) eq_refl).
  discriminate.
Defined.

Lemma or__flattens_one_level_witness :
  or_ [rel_a; rel_b] = Ok (Or [rel_a; rel_b]).
Proof. exact (proj1 or__flattens_one_level [rel_a; rel_b] eq_refl). Defined.

Lemma translator_builds_no_comparison_witness :
  isinstance (Name "a") cls.Relation = false
  /\ isinstance (Name "a") cls.Interval = false.
Proof.
  refine (translator_builds_no_comparison ints_only_binop no_attributes as_written
            (ast.BinOp (var "a") ast.Add (var "b")) true true
            (o := BinOp "+" [Tuple [Name "a"; Name "b"]]) (Name "a") eq_refl _).
  cbn; tauto.
Defined.

Lemma logical_not_always_raises_witness :
  is_Raise (recurse ints_only_binop no_attributes as_written
              (ast.UnaryOp ast.Not (var "x")) true true) = true.
Proof.
  exact (logical_not_always_raises ints_only_binop no_attributes as_written
           (var "x") true true eq_refl).
Defined.

Lemma logical_syntax_refused_below_top_witness :
  exists msg,
    recurse ints_only_binop no_attributes as_written
      (ast.Compare (var "x") [ast.Lt] [lit 5]) false false
    = Raise (ExpressionError msg (ast.Compare (var "x") [ast.Lt] [lit 5])).
Proof.
  destruct (logical_syntax_refused_below_top ints_only_binop no_attributes as_written
              (ast.Compare (var "x") [ast.Lt] [lit 5]) eq_refl) as [msg [H _]].
  exists msg; exact H.
Defined.

Lemma parse_result_witness :
  reducible (Text [ast.Expr (var "x")]) = true
  /\ names {| names := []; expr := Name "x" |} = [].
Proof.
  destruct (@parse_result ints_only_binop no_attributes as_written
              (Text [ast.Expr (var "x")]) {| names := []; expr := Name "x" |}
              eq_refl) as [H1 [H2 _]].
  split; [exact H1|exact H2].
Defined.

Lemma unary_result_has_no_str_witness :
  str (fun _ => "5") (fun _ => "5") (fun s => s) "<generator>"
    (UnaryOp "-" [Name "x"])
  = Raise (AttributeError "arg").
Proof.
  exact (@unary_result_has_no_str (fun _ => "5") (fun _ => "5") (fun s => s)
           "<generator>" ints_only_binop no_attributes as_written
           ast.USub (var "x") true true (UnaryOp "-" [Name "x"])
           (or_introl eq_refl) eq_refl).
Defined.

Lemma binop_result_str_is_tuple_repr_witness :
  exists t,
    [Tuple [Name "a"; Name "b"]] = [Tuple t]
    /\ str (fun _ => "5") (fun _ => "5") (fun s => s) "<generator>"
         (BinOp "+" [Tuple [Name "a"; Name "b"]])
       = repr (fun _ => "5") (fun _ => "5") (fun s => s) "<generator>" (Tuple t).
Proof.
  exact (@binop_result_str_is_tuple_repr (fun _ => "5") (fun _ => "5")
           (fun s => s) "<generator>" ints_only_binop no_attributes as_written
           (ast.BinOp (var "a") ast.Add (var "b")) true true
           "+" [Tuple [Name "a"; Name "b"]] eq_refl).
Defined.

Lemma comparison_str_witness :
  str (fun _ => "5") (fun _ => "5") (fun s => s) "<generator>"
    (Relation ">" (Name "x") (Name "y"))
  = Ok "x > y".
Proof.
  exact (proj1 (@comparison_str (fun _ => "5") (fun _ => "5") (fun s => s)
                  "<generator>" ">" (Name "x") (Name "y") (Name "a") (Name "b")
                  "x" "y" "a" "b" eq_refl eq_refl eq_refl eq_refl)).
Defined.

Lemma built_chain_splits_once_witness :
  vega.count (@vega.is_OverlayFacet nat)
    [vega.OverlayFacet (Some 0); vega.BelowFacet (Some 1)] <= 1.
Proof.
  pose (h := {| vega.group_and_fixed := [0; 1];
                vega.lookup_axis := fun k : nat => Some k |}).
  pose (c0 := @vega.FacetChain__init__ nat nat (inl h) (vega.OverlayFacet (Some 0))).
  pose (c1 := {| vega._source := h;
                 vega._chain := [vega.OverlayFacet (Some 0);
                                 vega.BelowFacet (Some 1)] |}).
  refine (proj1 (@built_chain_splits_once nat nat c1 _)).
  refine (@vega.built_below nat nat c0 c1 (@vega.GivenKey nat nat 1) _ eq_refl).
  exact (@vega.built_first nat nat h (vega.OverlayFacet (Some 0))).
Defined.

Lemma plots_that_are_refused_witness :
  vega.step
    {| vega._source := {| vega.group_and_fixed := [0];
                          vega.lookup_axis := fun k : nat => Some k |};
       vega._chain := [vega.StackFacet (Some 0)] |}
    (@vega.GivenNone nat nat) (@vega.GivenNone nat nat)
  = vega.Failed (vega.TypeError "only area can be stacked").
Proof.
  exact (proj1 (proj1 (@plots_that_are_refused nat nat
           {| vega._source := {| vega.group_and_fixed := [0];
                                 vega.lookup_axis := fun k : nat => Some k |};
              vega._chain := [vega.StackFacet (Some 0)] |}
           (@vega.GivenNone nat nat) (@vega.GivenNone nat nat) false) eq_refl)).
Defined.
